(** * MistralOcrBot: OCR result normalization and request handlers

    A shallow embedding of [bot.py].  Python [str] values are modelled as
    Rocq [string]s, one [ascii] standing for one Python character; a page
    attribute that [hasattr] may find missing is an [option]; exceptions are
    values of [exn] threaded through a small error monad; the calls a
    handler makes on Telegram, on the HTTP client and on the OCR provider are
    recorded in a trace of [action]s. *)

From Stdlib Require Import String Ascii List Bool Arith Lia DecimalString.
Import ListNotations.
Open Scope list_scope.
Open Scope string_scope.

(** ** Python string primitives used by [bot.py] *)

Module Py.

(** [s.startswith(p)] *)
Definition startswith (s p : string) : bool := String.prefix p s.

(** [sub in s] *)
Fixpoint contains (sub s : string) : bool :=
  String.prefix sub s ||
  match s with
  | EmptyString => false
  | String _ s' => contains sub s'
  end.

(** [s[n:]] for [n >= 0] *)
Fixpoint drop (n : nat) (s : string) : string :=
  match n, s with
  | O, _ => s
  | S _, EmptyString => EmptyString
  | S k, String _ s' => drop k s'
  end.

(** [s[:n]] for [n >= 0] *)
Definition take (n : nat) (s : string) : string := String.substring 0 n s.

(** The scan of [str.replace] for a non-empty [old]: the occurrences of
    [old] are found left to right and do not overlap.  [skip] counts the
    characters of a match that are still to be passed over. *)
Fixpoint replace_from (old new : string) (skip : nat) (s : string) : string :=
  match s with
  | EmptyString => EmptyString
  | String c s' =>
      match skip with
      | S k => replace_from old new k s'
      | O =>
          if String.prefix old s
          then new ++ replace_from old new (String.length old - 1) s'
          else String c (replace_from old new 0 s')
      end
  end.

(** What [str.replace] does for the empty [old]: [new] goes before every
    character and after the last. *)
Fixpoint intersperse (new s : string) : string :=
  match s with
  | EmptyString => new
  | String c s' => new ++ String c (intersperse new s')
  end.

(** [s.replace(old, new)] *)
Definition replace (old new s : string) : string :=
  match old with
  | EmptyString => intersperse new s
  | String _ _ => replace_from old new 0 s
  end.

(** The scan of [str.split] for a non-empty separator: [cur] is the field
    being read, in reverse. *)
Fixpoint rev_string (acc s : string) : string :=
  match s with
  | EmptyString => acc
  | String c s' => rev_string (String c acc) s'
  end.

Fixpoint split_from (sep : string) (skip : nat) (cur : string) (s : string)
  : list string :=
  match s with
  | EmptyString => [rev_string "" cur]
  | String c s' =>
      match skip with
      | S k => split_from sep k cur s'
      | O =>
          if String.prefix sep s
          then rev_string "" cur :: split_from sep (String.length sep - 1) "" s'
          else split_from sep 0 (String c cur) s'
      end
  end.

(** [s.split(sep)] for a non-empty [sep] (Python raises [ValueError] on the
    empty separator; [bot.py] only passes literals). *)
Definition split (sep s : string) : list string := split_from sep 0 "" s.

(** [sep.join(l)] *)
Definition join (sep : string) (l : list string) : string := String.concat sep l.

(** [c.lower()] on the ASCII range; other bytes are left alone. *)
Definition lower_ascii (c : ascii) : ascii :=
  let n := nat_of_ascii c in
  if ((65 <=? n)%nat && (n <=? 90)%nat)%bool then ascii_of_nat (n + 32) else c.

(** [s.lower()] *)
Fixpoint lower (s : string) : string :=
  match s with
  | EmptyString => EmptyString
  | String c s' => String (lower_ascii c) (lower s')
  end.

(** [c in chars] for a character *)
Fixpoint mem_char (c : ascii) (chars : string) : bool :=
  match chars with
  | EmptyString => false
  | String d chars' => Ascii.eqb c d || mem_char c chars'
  end.

Fixpoint lstrip (chars s : string) : string :=
  match s with
  | EmptyString => EmptyString
  | String c s' => if mem_char c chars then lstrip chars s' else s
  end.

(** [s.strip(chars)] *)
Definition strip (chars s : string) : string :=
  rev_string "" (lstrip chars (rev_string "" (lstrip chars s))).

(** [l[i]] for [i >= 0]; [None] stands for [IndexError]. *)
Definition index {A : Type} (l : list A) (i : nat) : option A := nth_error l i.

(** [l[-1]] *)
Definition last_item {A : Type} (l : list A) : option A :=
  match rev l with
  | [] => None
  | x :: _ => Some x
  end.

(** Truth value of a string: only the empty string is false. *)
Definition truthy (s : string) : bool :=
  match s with
  | EmptyString => false
  | String _ _ => true
  end.

End Py.

(** ** Data model: the provider's response *)

(** The line break ["\n"], the double quote and the single quote. *)
Definition nl : string := String "010"%char "".
Definition dquote : string := String "034"%char "".
Definition squote : string := String "039"%char "".

(** One embedded image of a page: [img.id] and [img.image_base64]. *)
Record OCRImage : Type := mkImage {
  id : string;
  image_base64 : string
}.

(** One paragraph of a page: [paragraph.text]. *)
Record Paragraph : Type := mkParagraph {
  text : string
}.

(** One page of the response.  Each attribute is [None] when
    [hasattr(page, ...)] is false. *)
Record OCRPage : Type := mkPage {
  paragraphs : option (list Paragraph);
  markdown : option string;
  images : option (list OCRImage)
}.

(** [ocr_response.pages] *)
Definition OCRResponse : Type := list OCRPage.

(** ** Exceptions *)

Inductive exn : Type :=
| AttributeError (attr : string)   (* reading an attribute the page lacks *)
| Raised (msg : string).           (* any other exception, with its message *)

(** [str(e)]; the pages of the response are [OCRPageObject]s. *)
Definition str_exn (e : exn) : string :=
  match e with
  | AttributeError attr =>
      "'OCRPageObject' object has no attribute '" ++ attr ++ "'"
  | Raised msg => msg
  end.

Definition result (A : Type) : Type := (exn + A)%type.

Definition ok {A : Type} (a : A) : result A := inr a.
Definition raise {A : Type} (e : exn) : result A := inl e.

Definition bind {A B : Type} (m : result A) (f : A -> result B) : result B :=
  match m with
  | inl e => inl e
  | inr a => f a
  end.

Notation "x <- m ;; k" := (bind m (fun x => k))
  (at level 61, m at next level, right associativity).

(** [page.markdown], which raises when the attribute is missing. *)
Definition get_markdown (page : OCRPage) : result string :=
  match markdown page with
  | Some md => ok md
  | None => raise (AttributeError "markdown")
  end.

(** ** Plain-text normalization (the loop of [send_ocr_results]) *)

(** The line filter of the markdown fallback. *)
Definition keep_line (line : string) : bool :=
  negb (Py.startswith line "![") && negb (Py.startswith line "<img").

(** The markdown fallback: [md_text] after the two rewriting statements. *)
Definition markdown_to_text (md : string) : string :=
  let md_text := md in
  let md_text :=
    Py.replace "### " "" (Py.replace "## " "" (Py.replace "# " "" md_text)) in
  Py.join nl (filter keep_line (Py.split nl md_text)).

(** The body of the inner loop over [page.paragraphs]. *)
Definition add_paragraph (text_content : string) (paragraph : Paragraph) : string :=
  text_content ++ text paragraph ++ nl.

(** The body of the loop over the pages. *)
Definition add_page (text_content : string) (page : OCRPage) : string :=
  let text_content :=
    match paragraphs page with
    | Some ps => fold_left add_paragraph ps text_content
    | None =>
        match markdown page with
        | Some md => text_content ++ markdown_to_text md ++ nl
        | None => text_content
        end
    end in
  text_content ++ nl.

(** [text_content] when the loop ends. *)
Definition extract_text (ocr_response : OCRResponse) : string :=
  fold_left add_page ocr_response "".

(** ** Markdown normalization *)

(** A [dict] with string keys, as the list of its items in insertion order. *)
Definition dict : Type := list (string * string).

(** [d[k] = v]: a key already present keeps its place and takes the new
    value; a new key goes last. *)
Fixpoint dict_set (k v : string) (d : dict) : dict :=
  match d with
  | [] => [(k, v)]
  | (k', v') :: d' =>
      if String.eqb k' k then (k, v) :: d' else (k', v') :: dict_set k v d'
  end.

(** The two f-strings of [replace_images_in_markdown]. *)
Definition image_ref (img_name : string) : string :=
  "![" ++ img_name ++ "](" ++ img_name ++ ")".

Definition image_inline (img_name base64_str : string) : string :=
  "![" ++ img_name ++ "](" ++ base64_str ++ ")".

Definition replace_images_in_markdown (markdown_str : string) (images_dict : dict)
  : string :=
  fold_left
    (fun markdown_str item =>
       let '(img_name, base64_str) := item in
       Py.replace (image_ref img_name) (image_inline img_name base64_str)
         markdown_str)
    images_dict markdown_str.

(** [image_data] after the loop over [page.images]. *)
Definition build_image_data (imgs : list OCRImage) : dict :=
  fold_left (fun image_data img => dict_set (id img) (image_base64 img) image_data)
    imgs [].

(** One turn of the loop of [get_combined_markdown] on the list [markdowns]. *)
Definition combine_page (markdowns : list string) (page : OCRPage)
  : result (list string) :=
  match images page with
  | Some imgs =>
      let image_data := build_image_data imgs in
      md <- get_markdown page ;;
      ok (markdowns ++ [replace_images_in_markdown md image_data])%list
  | None =>
      match markdown page with
      | Some md => ok (markdowns ++ [md])%list
      | None => ok markdowns
      end
  end.

Fixpoint combine_pages (markdowns : list string) (pages : list OCRPage)
  : result (list string) :=
  match pages with
  | [] => ok markdowns
  | page :: rest =>
      markdowns <- combine_page markdowns page ;;
      combine_pages markdowns rest
  end.

Definition get_combined_markdown (ocr_response : OCRResponse) : result string :=
  markdowns <- combine_pages [] ocr_response ;;
  ok (Py.join (nl ++ nl) markdowns).

(** The two strings [send_ocr_results] keeps for the download buttons. *)
Record NormalizedResult : Type := mkNormalized {
  ocr_text : string;
  ocr_markdown : string
}.

Definition normalize (ocr_response : OCRResponse) : result NormalizedResult :=
  let text_content := extract_text ocr_response in
  markdown_content <- get_combined_markdown ocr_response ;;
  ok (mkNormalized text_content markdown_content).

(** ** Result delivery: the preview of [send_ocr_results] *)

Definition preview_header : string :=
  "✅ Text extracted successfully! Here's the content:" ++ nl ++ nl.

Definition preview_more : string :=
  nl ++ nl ++ "(Select 'Download as file' below for complete content)".

Definition preview_too_long : string :=
  "✅ Text extracted successfully! The content is too long to display here." ++ nl
  ++ "Please use the buttons below to get the content as a file.".

(** The text that replaces the status message. *)
Definition preview_message (text_content : string) : string :=
  if (String.length text_content <=? 4096)%nat
  then preview_header ++ Py.take 4000 text_content
       ++ (if (4000 <? String.length text_content)%nat then preview_more else "")
  else preview_too_long.

(** ** Handlers and the calls they make *)

(** What a handler does to the outside: Telegram replies and edits, the HTTP
    client, the temporary file, the OCR provider, the log and [user_data]. *)
Inductive action : Type :=
| reply_text (msg : string)
| reply_text_markup (msg : string) (keyboard : list (list (string * string)))
| edit_text (msg : string)
| get_file
| temp_file (suffix : string)
| download_to_memory
| session_get (url : string)
| response_read
| files_upload (file_name : string)
| files_get_signed_url (file_id : string)
| ocr_process (document_url : string)
| unlink
| log_error (msg : string)
| set_user_data (key value : string).

(** A handler run: the calls made so far, and a value or the exception that
    stopped it. *)
Definition io (A : Type) : Type := (list action * result A)%type.

Definition io_ret {A : Type} (a : A) : io A := ([], ok a).

Definition io_bind {A B : Type} (m : io A) (f : A -> io B) : io B :=
  match m with
  | (t, inl e) => (t, inl e)
  | (t, inr a) => let '(t', r) := f a in ((t ++ t')%list, r)
  end.

(** A call that cannot fail in the model. *)
Definition emit (a : action) : io unit := ([a], ok tt).

(** A call on a collaborator, with the outcome the collaborator gives. *)
Definition call {A : Type} (a : action) (outcome : result A) : io A := ([a], outcome).

(** A pure computation that may raise. *)
Definition lift {A : Type} (r : result A) : io A := ([], r).

(** [try: body except Exception as e: handler(e)] *)
Definition try_except (body : io unit) (handler : exn -> io unit) : io unit :=
  match body with
  | (t, inl e) => let '(t', r) := handler e in ((t ++ t')%list, r)
  | (t, inr u) => (t, inr u)
  end.

Notation "x <~ m ;; k" := (io_bind m (fun x => k))
  (at level 61, m at next level, right associativity).
Notation "m ;;; k" := (io_bind m (fun _ => k))
  (at level 61, right associativity).

(** The calls of a run. *)
Definition trace {A : Type} (m : io A) : list action := fst m.

(** The inline keyboard of the download choice. *)
Definition keyboard : list (list (string * string)) :=
  [ [("Text (.txt)", "format_txt"); ("Markdown (.md)", "format_md")];
    [("❌ Cancel", "format_cancel")] ].

(** [send_ocr_results], from the response on ([json.loads] of the response
    is computed and never read: it is left out). *)
Definition send_ocr_results (ocr_response : OCRResponse) : io unit :=
  try_except
    (let text_content := extract_text ocr_response in
     markdown_content <~ lift (get_combined_markdown ocr_response) ;;
     emit (edit_text (preview_message text_content)) ;;;
     emit (set_user_data "ocr_text" text_content) ;;;
     emit (set_user_data "ocr_markdown" markdown_content) ;;;
     emit (reply_text_markup "📝 Choose a download format:" keyboard))
    (fun e =>
       emit (log_error ("Error processing OCR results: " ++ str_exn e)) ;;;
       emit (edit_text ("❌ Error processing OCR results: " ++ str_exn e))).

(** The allow-list test [extension not in ['.pdf', '.jpg', '.jpeg', '.png']],
    negated. *)
Definition supported_extensions : list string := [".pdf"; ".jpg"; ".jpeg"; ".png"].

Definition is_supported (extension : string) : bool :=
  existsb (String.eqb extension) supported_extensions.

(** Library functions the handlers call: [Path(p).suffix],
    [mimetypes.guess_extension] and [urllib.parse.urlparse] (its [scheme]
    and [netloc]; it may raise). *)
Record Library : Type := mkLibrary {
  path_suffix : string -> string;
  guess_extension : string -> option string;
  urlparse : string -> result (string * string)
}.

(** The response of the HTTP GET, as far as [link_command] reads it. *)
Record Response : Type := mkResponse {
  status : nat;
  content_disposition : option string;   (* headers.get('Content-Disposition') *)
  content_type_header : option string;   (* the Content-Type header, if any *)
  read : result string                   (* await response.read() *)
}.

(** The outcome of each call on Telegram's file storage, on the HTTP client
    and on the OCR provider. *)
Record World : Type := mkWorld {
  document_file_path : result string;            (* get_file().file_path *)
  document_file_name : string;                   (* message.document.file_name *)
  download : result unit;                        (* download_to_memory *)
  http_get : string -> result Response;          (* session.get(url) *)
  upload : string -> result string;              (* files.upload(...).id *)
  signed_url : string -> result string;          (* files.get_signed_url(...).url *)
  ocr : string -> result OCRResponse             (* ocr.process(...) *)
}.

(** Upload, signed URL, OCR, clean-up and delivery: the tail shared by
    [process_document] and [link_command]. *)
Definition submit (w : World) (file_name : string) : io unit :=
  uploaded_file <~ call (files_upload file_name) (upload w file_name) ;;
  signed <~ call (files_get_signed_url uploaded_file) (signed_url w uploaded_file) ;;
  ocr_response <~ call (ocr_process signed) (ocr w signed) ;;
  emit unlink ;;;
  send_ocr_results ocr_response.

Definition unsupported_document_msg : string :=
  "❌ Unsupported file type. Please send a PDF or image file (jpg, jpeg, png).".

Definition processing_document_msg : string :=
  "⏳ Processing your document. This may take a moment...".

Definition process_document (lib : Library) (w : World) : io unit :=
  emit (reply_text processing_document_msg) ;;;
  try_except
    (file_path <~ call get_file (document_file_path w) ;;
     let file_extension := Py.lower (path_suffix lib file_path) in
     if negb (is_supported file_extension)
     then emit (edit_text unsupported_document_msg)
     else
       emit (temp_file file_extension) ;;;
       call download_to_memory (download w) ;;;
       submit w (document_file_name w))
    (fun e =>
       emit (log_error ("Error processing document: " ++ str_exn e)) ;;;
       emit (edit_text ("❌ Error processing document: " ++ str_exn e))).

(** [str(n)] for a status code. *)
Definition str_nat (n : nat) : string := NilZero.string_of_uint (Nat.to_uint n).

(** The file name of a download: from [Content-Disposition] when it has a
    [filename=], else the tail of the URL. *)
Definition download_filename (url : string) (content_disposition : option string)
  : result string :=
  match content_disposition with
  | Some cd =>
      if Py.truthy cd && Py.contains "filename=" cd
      then
        match Py.index (Py.split "filename=" cd) 1 with
        | Some name => ok (Py.strip (dquote ++ squote) name)
        | None => raise (Raised "list index out of range")
        end
      else
        match Py.last_item (Py.split "/" url) with
        | Some name => ok name
        | None => raise (Raised "list index out of range")
        end
  | None =>
      match Py.last_item (Py.split "/" url) with
      | Some name => ok name
      | None => raise (Raised "list index out of range")
      end
  end.

(** The extension of a download ("Determine file extension"). *)
Definition resolve_extension (lib : Library) (content_type filename : string)
  : string :=
  let extension := guess_extension lib content_type in
  match extension with
  | Some (String c e) => String c e
  | _ =>
      let extension := path_suffix lib filename in
      if Py.truthy extension then extension
      else if Py.contains "image" content_type then ".jpg" else ".pdf"
  end.

Definition link_usage_msg : string :=
  "请在/link命令后提供URL链接。" ++ nl ++ "使用格式: /link http://example.com/file.pdf".

Definition link_invalid_msg : string := "无效URL。请提供有效的http://或https://链接".

Definition link_malformed_msg : string := "URL格式无效。请检查您的链接。".

Definition link_unsupported_msg (extension : string) : string :=
  "❌ 不支持的文件类型 (" ++ extension ++ ")。请提供PDF或图片文件链接 (jpg, jpeg, png)。".

Definition processing_link_msg : string :=
  "⏳ 正在从URL下载并处理文件。这可能需要一点时间...".

(** [headers.get('Content-Type', '')] *)
Definition content_type (response : Response) : string :=
  match content_type_header response with
  | Some ct => ct
  | None => ""
  end.

(** The part of [link_command] from [session.get(url)] on. *)
Definition fetch (lib : Library) (w : World) (url : string) : io unit :=
  response <~ call (session_get url) (http_get w url) ;;
  if negb (status response =? 200)%nat
  then emit (edit_text ("❌ 文件下载失败。状态码: " ++ str_nat (status response)))
  else
    filename <~ lift (download_filename url (content_disposition response)) ;;
    let content_type := content_type response in
    let extension := resolve_extension lib content_type filename in
    if negb (is_supported (Py.lower extension))
    then emit (edit_text (link_unsupported_msg extension))
    else
      call response_read (read response) ;;;
      emit (temp_file extension) ;;;
      submit w filename.

Definition link_command (lib : Library) (w : World) (args : list string) : io unit :=
  match args with
  | [] => emit (reply_text link_usage_msg)
  | url :: _ =>
      match urlparse lib url with
      | inl _ => emit (reply_text link_malformed_msg)
      | inr (scheme, netloc) =>
          if Py.truthy scheme && Py.truthy netloc
          then
            emit (reply_text processing_link_msg) ;;;
            try_except (fetch lib w url)
              (fun e =>
                 emit (log_error ("Error processing file from URL: " ++ str_exn e)) ;;;
                 emit (edit_text ("❌ 从URL处理文件时出错: " ++ str_exn e)))
          else emit (reply_text link_invalid_msg)
      end
  end.

(** The calls that reach the network for a file: the HTTP download, the
    upload and signed-URL requests and the OCR request. *)
Definition is_network_call (a : action) : bool :=
  match a with
  | get_file | download_to_memory | session_get _ | response_read
  | files_upload _ | files_get_signed_url _ | ocr_process _ => true
  | _ => false
  end.

(** The upload and OCR calls on the provider. *)
Definition is_provider_call (a : action) : bool :=
  match a with
  | files_upload _ | files_get_signed_url _ | ocr_process _ => true
  | _ => false
  end.

(** ** Notions of the specification *)

(** The text a page contributes to the transcript: its paragraphs, each
    followed by a line break; else its markdown reduced to text and followed
    by a line break; else nothing. *)
Definition page_text (page : OCRPage) : string :=
  match paragraphs page with
  | Some ps => String.concat "" (map (fun paragraph => text paragraph ++ nl) ps)
  | None =>
      match markdown page with
      | Some md => markdown_to_text md ++ nl
      | None => ""
      end
  end.

(** The [/link] argument is there and parses with a scheme and a host. *)
Definition link_input_ok (lib : Library) (args : list string) : bool :=
  match args with
  | [] => false
  | url :: _ =>
      match urlparse lib url with
      | inl _ => false
      | inr (scheme, netloc) => Py.truthy scheme && Py.truthy netloc
      end
  end.

(** A step of the fallback chain "yields nothing". *)
Definition nothing (extension : option string) : Prop :=
  extension = None \/ extension = Some "".

(** No character of [chars] occurs in [s]. *)
Fixpoint free_of (chars s : string) : bool :=
  match s with
  | EmptyString => true
  | String c s' => negb (Py.mem_char c chars) && free_of chars s'
  end.

(** ** Sample inputs *)

Fixpoint repeat_char (c : ascii) (n : nat) : string :=
  match n with
  | O => EmptyString
  | S k => String c (repeat_char c k)
  end.

Definition markdown_page (md : string) : OCRPage := mkPage None (Some md) None.

Definition image_page (md : string) (imgs : list OCRImage) : OCRPage :=
  mkPage None (Some md) (Some imgs).

Definition imgA : OCRImage := mkImage "imgA" "BASE64".

(** A page with images and paragraphs, and no markdown. *)
Definition paragraph_page_with_images : OCRPage :=
  mkPage (Some [mkParagraph "Hello"; mkParagraph "World"]) None (Some [imgA]).

(** A markdown that names the image twice, once outside the image syntax. *)
Definition imgA_named_twice : string := "![imgA](imgA) see (imgA)".

(** A transcript of 4096 characters. *)
Definition transcript_4096 : string := repeat_char "a" 4096.

(** [PurePosixPath(p).suffix]: the last component from its last dot on,
    unless that dot is its first or its last character. *)
Definition sample_suffix (p : string) : string :=
  match Py.last_item (Py.split "/" p) with
  | None => ""
  | Some name =>
      match rev (Py.split "." name) with
      | last :: (_ :: _) as init =>
          if Py.truthy (Py.join "." (rev init)) && Py.truthy last
          then "." ++ last else ""
      | _ => ""
      end
  end.

(** A few rows of the MIME table. *)
Definition sample_guess_extension (content_type : string) : option string :=
  let t := Py.lower content_type in
  if String.eqb t "application/pdf" then Some ".pdf"
  else if String.eqb t "image/jpeg" then Some ".jpg"
  else if String.eqb t "image/png" then Some ".png"
  else if String.eqb t "text/html" then Some ".html"
  else None.

(** Scheme and host of [scheme://host/path]; everything else has neither. *)
Definition sample_urlparse (url : string) : result (string * string) :=
  match Py.split "://" url with
  | scheme :: rest :: _ =>
      match Py.split "/" rest with
      | netloc :: _ => ok (scheme, netloc)
      | [] => ok (scheme, "")
      end
  | _ => ok ("", "")
  end.

Definition sample_library : Library :=
  mkLibrary sample_suffix sample_guess_extension sample_urlparse.

Definition sample_response (content_type : option string) : Response :=
  mkResponse 200 None content_type (ok "%PDF-1.4").

(** A world where every call succeeds and the provider returns one page. *)
Definition sample_world (file_path : string) (content_type : option string) : World :=
  mkWorld (ok file_path) "scan.pdf" (ok tt)
    (fun _ => ok (sample_response content_type))
    (fun _ => ok "file-1")
    (fun _ => ok "https://files.example/signed")
    (fun _ => ok [markdown_page "# Title"]).

(** ** The photo handler *)

(** The attribute [file_path] of the photo file: missing
    ([hasattr(photo_file, 'file_path')] is false), [None], or a string. *)
Inductive file_path_attr : Type :=
| Missing
| PyNone
| Str (path : string).

(** What [process_photo] reads of the photo: the outcome of
    [message.photo[-1].get_file()] with the [file_path] of the file,
    [message.message_id], and the outcome of the OCR request on an image
    URL. *)
Record Photo : Type := mkPhoto {
  photo_file_path : result file_path_attr;
  message_id : nat;
  ocr_image : string -> result OCRResponse
}.

Definition processing_photo_msg : string :=
  "⏳ Processing your image. This may take a moment...".

(** The [else] branch of [process_photo]: download, upload, signed URL, OCR
    and clean-up. *)
Definition upload_photo (w : World) (p : Photo) : io OCRResponse :=
  emit (temp_file ".jpg") ;;;
  call download_to_memory (download w) ;;;
  let file_name := "telegram_image_" ++ str_nat (message_id p) ++ ".jpg" in
  uploaded_file <~ call (files_upload file_name) (upload w file_name) ;;
  signed <~ call (files_get_signed_url uploaded_file) (signed_url w uploaded_file) ;;
  ocr_response <~ call (ocr_process signed) (ocr w signed) ;;
  emit unlink ;;;
  io_ret ocr_response.

(** [process_photo].  The action [ocr_process] records the URL the provider
    is asked to read, for an image URL as for a document URL. *)
Definition process_photo (w : World) (p : Photo) : io unit :=
  emit (reply_text processing_photo_msg) ;;;
  try_except
    (file_path <~ call get_file (photo_file_path p) ;;
     ocr_response <~
       match file_path with
       | Missing => upload_photo w p
       | PyNone =>
           lift (raise (Raised
                          "'NoneType' object has no attribute 'startswith'"))
       | Str path =>
           if Py.startswith path "http"
           then call (ocr_process path) (ocr_image p path)
           else upload_photo w p
       end ;;
     send_ocr_results ocr_response)
    (fun e =>
       emit (log_error ("Error processing photo: " ++ str_exn e)) ;;;
       emit (edit_text ("❌ Error processing photo: " ++ str_exn e))).

(** ** The download buttons *)

(** [d[k]]; [None] stands for [KeyError]. *)
Fixpoint dict_get (k : string) (d : dict) : option string :=
  match d with
  | [] => None
  | (k', v) :: d' => if String.eqb k' k then Some v else dict_get k d'
  end.

(** [context.user_data] once the calls of a run are made. *)
Definition user_data_after (t : list action) (user_data : dict) : dict :=
  fold_left
    (fun user_data a =>
       match a with
       | set_user_data key value => dict_set key value user_data
       | _ => user_data
       end)
    t user_data.

(** What [button_callback] does to the outside. *)
Inductive query_action : Type :=
| answer
| reply_document (filename content caption : string)
| edit_message_text (msg : string).

Definition document_caption : string := "🎉 Here's your extracted file! ".

(** [context.user_data[key]] *)
Definition get_user_data (user_data : dict) (key : string) : result string :=
  match dict_get key user_data with
  | Some value => ok value
  | None => raise (Raised ("'" ++ key ++ "'"))
  end.

(** [button_callback] on the callback data [query.data]: the calls made and
    the exception that leaves the handler, if any (it has no [try]). *)
Definition button_callback (user_data : dict) (data : string)
  : list query_action * result unit :=
  if Py.startswith data "format_"
  then
    match Py.index (Py.split "_" data) 1 with
    | None => ([answer], raise (Raised "list index out of range"))
    | Some format_type =>
        if String.eqb format_type "txt"
        then
          match get_user_data user_data "ocr_text" with
          | inl e => ([answer], inl e)
          | inr content =>
              ([answer; reply_document "extracted_text.txt" content document_caption],
               ok tt)
          end
        else if String.eqb format_type "md"
        then
          match get_user_data user_data "ocr_markdown" with
          | inl e => ([answer], inl e)
          | inr content =>
              ([answer;
                reply_document "extracted_content.md" content document_caption],
               ok tt)
          end
        else if String.eqb format_type "cancel"
        then ([answer; edit_message_text "❌ Operation cancelled"], ok tt)
        else ([answer], ok tt)
    end
  else ([answer], ok tt).

(** ** Further notions *)

(** What a page adds to the list [markdowns], when it adds something. *)
Definition page_markdown (page : OCRPage) : option string :=
  match images page, markdown page with
  | Some imgs, Some md =>
      Some (replace_images_in_markdown md (build_image_data imgs))
  | None, Some md => Some md
  | _, None => None
  end.

(** The page has images and no markdown. *)
Definition missing_markdown (page : OCRPage) : bool :=
  match images page, markdown page with
  | Some _, None => true
  | _, _ => false
  end.

(** The body of the loop over [page.images]. *)
Definition add_image (image_data : dict) (img : OCRImage) : dict :=
  dict_set (id img) (image_base64 img) image_data.

Definition option_list {A : Type} (o : option A) : list A :=
  match o with
  | Some a => [a]
  | None => []
  end.

Definition is_unlink (a : action) : bool :=
  match a with
  | unlink => true
  | _ => false
  end.

Definition is_temp_file (a : action) : bool :=
  match a with
  | temp_file _ => true
  | _ => false
  end.

Definition is_set_user_data (a : action) : bool :=
  match a with
  | set_user_data _ _ => true
  | _ => false
  end.

(** Upload, signed URL and OCR request in a row: what the provider gives
    for a file. *)
Definition provider_outcome (w : World) (file_name : string)
  : result OCRResponse :=
  uploaded_file <- upload w file_name ;;
  signed <- signed_url w uploaded_file ;;
  ocr w signed.

(** The calls that stage a file for the provider: temporary file, download
    from Telegram, upload and signed URL. *)
Definition is_staging_call (a : action) : bool :=
  match a with
  | temp_file _ | download_to_memory | files_upload _ | files_get_signed_url _ =>
      true
  | _ => false
  end.

Definition is_reply_document (a : query_action) : bool :=
  match a with
  | reply_document _ _ _ => true
  | _ => false
  end.

(** ** Well-formed images *)

(** The text holds none of the characters of the image syntax. *)
Definition plain (s : string) : bool := free_of "![]()" s.

(** Identifier and payload are plain and differ. *)
Definition well_formed_image (img : OCRImage) : Prop :=
  plain (id img) = true /\ plain (image_base64 img) = true
  /\ id img <> image_base64 img.

(** ** Further sample inputs *)

(** A page with two figures, the first one shown twice. *)
Definition two_figures : list OCRImage :=
  [mkImage "fig1.png" "data:image/png;base64,AAAA";
   mkImage "fig2.png" "data:image/png;base64,BBBB"].

Definition two_figures_markdown : string :=
  "![fig1.png](fig1.png)" ++ nl ++ "![fig2.png](fig2.png) and ![fig1.png](fig1.png)".

(** Two images, the payload of the first being a reference to the second. *)
Definition nested_images : list OCRImage :=
  [mkImage "a" "![b](b)"; mkImage "b" "Z"].

(** A photo whose every call succeeds. *)
Definition sample_photo (file_path : file_path_attr) : Photo :=
  mkPhoto (ok file_path) 7 (fun _ => ok [markdown_page "Receipt"]).

(** A world where the upload to the provider is refused. *)
Definition upload_failing_world : World :=
  mkWorld (ok "documents/scan.pdf") "scan.pdf" (ok tt)
    (fun _ => raise (Raised "connection refused"))
    (fun _ => raise (Raised "401 Unauthorized"))
    (fun _ => ok "https://files.example/signed")
    (fun _ => ok []).

(** * Properties *)

(** ** Strings *)

Section StringFacts.

Lemma append_nil_r (s : string) : s ++ "" = s.
Proof.
  induction s as [|c s IH]; simpl; [reflexivity | now rewrite IH].
Qed.

Lemma append_assoc (s t u : string) : (s ++ t) ++ u = s ++ t ++ u.
Proof.
  induction s as [|c s IH]; simpl; [reflexivity | now rewrite IH].
Qed.

Lemma length_append (s t : string) :
  String.length (s ++ t) = String.length s + String.length t.
Proof.
  induction s as [|c s IH]; simpl; [reflexivity | now rewrite IH].
Qed.

Lemma concat_empty_cons (x : string) (l : list string) :
  String.concat "" (x :: l) = x ++ String.concat "" l.
Proof.
  destruct l as [|y l]; simpl; [now rewrite append_nil_r | reflexivity].
Qed.

Lemma concat_empty_app (l1 l2 : list string) :
  String.concat "" (l1 ++ l2) = String.concat "" l1 ++ String.concat "" l2.
Proof.
  induction l1 as [|x l1 IH]; [reflexivity|].
  rewrite <- app_comm_cons, !concat_empty_cons, IH.
  now rewrite append_assoc.
Qed.

Lemma prefix_cons (a b : ascii) (s t : string) :
  String.prefix (String a s) (String b t) = true <->
  a = b /\ String.prefix s t = true.
Proof.
  simpl. destruct (ascii_dec a b) as [E|N]; split.
  - intros H; now split.
  - now intros [_ H].
  - discriminate.
  - intros [E _]; contradiction.
Qed.

Lemma prefix_append (s t : string) : String.prefix s (s ++ t) = true.
Proof.
  induction s as [|c s IH]; simpl.
  - now destruct t.
  - destruct (ascii_dec c c) as [_|N]; [exact IH | contradiction].
Qed.

Lemma prefix_empty (s : string) : String.prefix "" s = true.
Proof. now destruct s. Qed.

Lemma prefix_of_empty (c : ascii) (s : string) :
  String.prefix (String c s) "" = false.
Proof. reflexivity. Qed.

Lemma contains_cons (sub : string) (c : ascii) (s : string) :
  Py.contains sub (String c s) = String.prefix sub (String c s) || Py.contains sub s.
Proof. reflexivity. Qed.

Lemma contains_append_r (sub s t : string) :
  Py.contains sub t = true -> Py.contains sub (s ++ t) = true.
Proof.
  intros H. induction s as [|c s IH]; [exact H|].
  change (String c s ++ t) with (String c (s ++ t)).
  rewrite contains_cons, IH. apply orb_true_r.
Qed.

Lemma contains_prefix (sub s : string) :
  String.prefix sub s = true -> Py.contains sub s = true.
Proof.
  intros H. destruct s as [|c s]; simpl in *; rewrite H; reflexivity.
Qed.

Lemma take_all (n : nat) (s : string) :
  String.length s <= n -> Py.take n s = s.
Proof.
  unfold Py.take. revert n.
  induction s as [|c s IH]; intros n H.
  - now destruct n.
  - destruct n as [|n]; simpl in *; [lia|].
    f_equal. apply IH. lia.
Qed.

Lemma length_take (n : nat) (s : string) :
  n <= String.length s -> String.length (Py.take n s) = n.
Proof.
  unfold Py.take. revert n.
  induction s as [|c s IH]; intros n H.
  - destruct n; simpl in *; [reflexivity | lia].
  - destruct n as [|n]; simpl in *; [reflexivity|].
    f_equal. apply IH. lia.
Qed.

End StringFacts.

(** ** [str.replace] *)

Section Replace.

Variables old new : string.

(** While a match is being passed over, the scan ignores what it reads. *)
Lemma replace_from_drop (k : nat) (s : string) :
  Py.replace_from old new k s = Py.replace_from old new 0 (Py.drop k s).
Proof.
  revert k. induction s as [|c s IH]; intros [|k]; try reflexivity.
  cbn [Py.drop Py.replace_from]. apply IH.
Qed.

(** The equations of [str.replace] for a non-empty [old]: a match at the
    head is replaced and the scan resumes after it; else the head is kept. *)
Lemma replace_from_match (c : ascii) (s : string) :
  old <> "" ->
  String.prefix old (String c s) = true ->
  Py.replace_from old new 0 (String c s) =
  new ++ Py.replace_from old new 0 (Py.drop (String.length old) (String c s)).
Proof.
  intros Hne H. cbn [Py.replace_from]. rewrite H.
  f_equal. rewrite replace_from_drop.
  destruct old as [|a o]; [contradiction|].
  simpl. now rewrite Nat.sub_0_r.
Qed.

Lemma replace_from_keep (c : ascii) (s : string) :
  String.prefix old (String c s) = false ->
  Py.replace_from old new 0 (String c s) = String c (Py.replace_from old new 0 s).
Proof.
  intros H. cbn [Py.replace_from]. now rewrite H.
Qed.

(** Where [old] occurs, [new] occurs after the replacement. *)
Lemma replace_from_contains (s : string) :
  old <> "" ->
  Py.contains old s = true ->
  Py.contains new (Py.replace_from old new 0 s) = true.
Proof.
  intros Hne. induction s as [|c s IH]; intros H.
  - destruct old; [contradiction | discriminate].
  - destruct (String.prefix old (String c s)) eqn:E.
    + rewrite replace_from_match by assumption.
      apply contains_prefix, prefix_append.
    + rewrite replace_from_keep by exact E.
      rewrite contains_cons in H. rewrite E in H. simpl in H.
      rewrite contains_cons, (IH H). apply orb_true_r.
Qed.

End Replace.

(** ** Replacing a marked pattern

    [old] and [new] start with the same character [m], which occurs nowhere
    else in them, and [new] followed by anything does not start with [old].
    Then no [old] is left after [old] is replaced by [new]. *)

Section ReplaceMarked.

Variable m : ascii.
Variables o n : string.

Local Abbreviation mark := (String m "").
Local Abbreviation old := (String m o).
Local Abbreviation new := (String m n).

Hypothesis o_free : free_of mark o = true.
Hypothesis n_free : free_of mark n = true.
Hypothesis differ : forall r, String.prefix old (new ++ r) = false.

Lemma free_of_mark_head (a : ascii) (t : string) :
  free_of mark (String a t) = true -> a <> m /\ free_of mark t = true.
Proof.
  simpl. rewrite orb_false_r. intros H.
  apply andb_true_iff in H. destruct H as [H1 H2]. split; [|exact H2].
  intros ->. now rewrite Ascii.eqb_refl in H1.
Qed.

Lemma old_not_at (a : ascii) (t : string) :
  a <> m -> String.prefix old (String a t) = false.
Proof.
  intros Ha. destruct (String.prefix old (String a t)) eqn:E; [|reflexivity].
  apply prefix_cons in E. destruct E as [E _]. now symmetry in E.
Qed.

(** A text without the mark that starts the output also starts the input. *)
Lemma unmarked_prefix (t s : string) :
  free_of mark t = true ->
  String.prefix t (Py.replace_from old new 0 s) = true ->
  String.prefix t s = true.
Proof.
  revert s. induction t as [|a t IH]; intros s Hf H.
  - apply prefix_empty.
  - apply free_of_mark_head in Hf. destruct Hf as [Ha Hf].
    destruct s as [|c s]; [discriminate H|].
    destruct (String.prefix old (String c s)) eqn:E.
    + cbn [Py.replace_from] in H. rewrite E in H.
      apply prefix_cons in H. now destruct H.
    + rewrite replace_from_keep in H by exact E.
      apply prefix_cons in H. destruct H as [-> H].
      apply prefix_cons. split; [reflexivity | now apply IH].
Qed.

Lemma contains_skip_unmarked (t r : string) :
  free_of mark t = true -> Py.contains old (t ++ r) = Py.contains old r.
Proof.
  induction t as [|a t IH]; intros Hf; [reflexivity|].
  apply free_of_mark_head in Hf. destruct Hf as [Ha Hf].
  change (String a t ++ r) with (String a (t ++ r)).
  rewrite contains_cons, old_not_at by exact Ha.
  now apply IH.
Qed.

Lemma replace_from_removes (k : nat) (s : string) :
  Py.contains old (Py.replace_from old new k s) = false.
Proof.
  revert k. induction s as [|c s IH]; intros k.
  - reflexivity.
  - destruct k as [|k]; [|apply IH].
    destruct (String.prefix old (String c s)) eqn:E.
    + cbn [Py.replace_from]. rewrite E.
      set (r := Py.replace_from old new (String.length old - 1) s).
      change (new ++ r) with (String m (n ++ r)).
      rewrite contains_cons.
      change (String m (n ++ r)) with (new ++ r). rewrite differ.
      rewrite contains_skip_unmarked by exact n_free. apply IH.
    + rewrite replace_from_keep by exact E.
      rewrite contains_cons, IH, orb_false_r.
      destruct (String.prefix old (String c (Py.replace_from old new 0 s))) eqn:P;
        [|reflexivity].
      apply prefix_cons in P. destruct P as [<- P].
      apply unmarked_prefix in P; [|exact o_free].
      assert (Q : String.prefix old (String m s) = true)
        by (apply prefix_cons; now split).
      congruence.
Qed.

End ReplaceMarked.

(** ** Image references *)

Section ImageRefs.

Lemma free_of_append (chars s t : string) :
  free_of chars (s ++ t) = free_of chars s && free_of chars t.
Proof.
  induction s as [|c s IH]; simpl; [reflexivity|].
  now rewrite IH, andb_assoc.
Qed.

Lemma free_of_one (c d : ascii) (chars s : string) :
  free_of (String c (String d chars)) s = true ->
  free_of (String c "") s = true /\ free_of (String d "") s = true.
Proof.
  induction s as [|a s IH]; simpl; [now split|].
  rewrite !orb_false_r, !negb_orb, !andb_true_iff.
  intros [[Hc [Hd _]] H]. destruct (IH H) as [H1 H2].
  now rewrite Hc, Hd, H1, H2.
Qed.

Lemma prefix_append_cancel (x y z : string) :
  String.prefix (x ++ y) (x ++ z) = String.prefix y z.
Proof.
  induction x as [|c x IH]; simpl; [reflexivity|].
  destruct (ascii_dec c c) as [_|N]; [exact IH | contradiction].
Qed.

(** Distinct names without a closing parenthesis stay distinct once closed. *)
Lemma closed_names_differ (i b r : string) :
  free_of ")" i = true -> free_of ")" b = true -> i <> b ->
  String.prefix (i ++ ")") (b ++ ")" ++ r) = false.
Proof.
  assert (head : forall x t, free_of ")" (String x t) = true ->
                             x <> ")"%char /\ free_of ")" t = true).
  { intros x t H. simpl in H. rewrite orb_false_r in H.
    apply andb_true_iff in H. destruct H as [Hx Ht]. split; [|exact Ht].
    intros ->. discriminate Hx. }
  revert b. induction i as [|a i IH]; intros b Hi Hb Hne.
  - destruct b as [|x b]; [contradiction|].
    apply head in Hb. destruct Hb as [Hx _].
    change (String.prefix (String ")" "") (String x (b ++ ")" ++ r)) = false).
    destruct (String.prefix _ _) eqn:P; [|reflexivity].
    apply prefix_cons in P. destruct P as [P _]. now symmetry in P.
  - apply head in Hi. destruct Hi as [Ha Hi].
    destruct b as [|x b].
    + change (String.prefix (String a (i ++ ")")) (String ")" r) = false).
      destruct (String.prefix _ _) eqn:P; [|reflexivity].
      apply prefix_cons in P. now destruct P.
    + apply head in Hb. destruct Hb as [_ Hb].
      change (String.prefix (String a (i ++ ")")) (String x (b ++ ")" ++ r)) = false).
      destruct (String.prefix _ _) eqn:P; [|reflexivity].
      apply prefix_cons in P. destruct P as [-> P].
      rewrite IH in P; [discriminate P | assumption | assumption |].
      intros ->. now apply Hne.
Qed.

(** For one image whose name and payload are distinct and contain neither
    ['!'] nor [')'], the rewriting leaves no reference to the image. *)
Lemma image_ref_removed (i b s : string) :
  free_of "!)" i = true -> free_of "!)" b = true -> i <> b ->
  Py.contains (image_ref i)
    (Py.replace (image_ref i) (image_inline i b) s) = false.
Proof.
  intros Hi Hb Hne.
  apply free_of_one in Hi. destruct Hi as [Hi1 Hi2].
  apply free_of_one in Hb. destruct Hb as [Hb1 Hb2].
  change (image_ref i) with (String "!" ("[" ++ i ++ "](" ++ i ++ ")")).
  change (image_inline i b) with (String "!" ("[" ++ i ++ "](" ++ b ++ ")")).
  unfold Py.replace. apply replace_from_removes.
  - change ("[" ++ i ++ "](" ++ i ++ ")") with ("[" ++ (i ++ "](" ++ (i ++ ")"))).
    rewrite !free_of_append, Hi1. reflexivity.
  - change ("[" ++ i ++ "](" ++ b ++ ")") with ("[" ++ (i ++ "](" ++ (b ++ ")"))).
    rewrite !free_of_append, Hi1, Hb1. reflexivity.
  - intros r.
    change (String "!" ("[" ++ i ++ "](" ++ i ++ ")"))
      with ("![" ++ (i ++ ("](" ++ (i ++ ")")))).
    change (String "!" ("[" ++ i ++ "](" ++ b ++ ")") ++ r)
      with ("![" ++ ((i ++ ("](" ++ (b ++ ")"))) ++ r)).
    rewrite prefix_append_cancel.
    rewrite (append_assoc i), prefix_append_cancel.
    rewrite (append_assoc "]("), prefix_append_cancel.
    rewrite (append_assoc b).
    now apply closed_names_differ.
Qed.

(** Where the reference occurs, the inlined image occurs afterwards. *)
Lemma image_ref_inlined (i b s : string) :
  Py.contains (image_ref i) s = true ->
  Py.contains (image_inline i b)
    (Py.replace (image_ref i) (image_inline i b) s) = true.
Proof.
  intros H.
  change (image_ref i) with (String "!" ("[" ++ i ++ "](" ++ i ++ ")")) in *.
  unfold Py.replace. apply replace_from_contains; [discriminate | exact H].
Qed.

End ImageRefs.

(** ** Plain-text normalization *)

Section PlainText.

Lemma fold_add_paragraph (ps : list Paragraph) (acc : string) :
  fold_left add_paragraph ps acc =
  acc ++ String.concat "" (map (fun paragraph => text paragraph ++ nl) ps).
Proof.
  revert acc. induction ps as [|p ps IH]; intros acc.
  - simpl. now rewrite append_nil_r.
  - cbn [fold_left map]. rewrite IH, concat_empty_cons.
    unfold add_paragraph. now rewrite !append_assoc.
Qed.

Lemma add_page_text (text_content : string) (page : OCRPage) :
  add_page text_content page = text_content ++ page_text page ++ nl.
Proof.
  unfold add_page, page_text.
  destruct (paragraphs page) as [ps|].
  - now rewrite fold_add_paragraph, append_assoc.
  - destruct (markdown page) as [md|]; [now rewrite !append_assoc | reflexivity].
Qed.

Lemma fold_add_page (pages : list OCRPage) (acc : string) :
  fold_left add_page pages acc =
  acc ++ String.concat "" (map (fun page => page_text page ++ nl) pages).
Proof.
  revert acc. induction pages as [|page pages IH]; intros acc.
  - simpl. now rewrite append_nil_r.
  - cbn [fold_left map]. rewrite IH, concat_empty_cons, add_page_text.
    now rewrite !append_assoc.
Qed.

Lemma lines_end_with_break (ps : list Paragraph) :
  ps <> [] ->
  exists u,
    String.concat "" (map (fun paragraph => text paragraph ++ nl) ps) = u ++ nl.
Proof.
  induction ps as [|p ps IH]; intros H; [contradiction|].
  destruct ps as [|q ps].
  - exists (text p). reflexivity.
  - destruct IH as [u Hu]; [discriminate|].
    exists ((text p ++ nl) ++ u).
    cbn [map]. rewrite concat_empty_cons. cbn [map] in Hu. rewrite Hu.
    now rewrite !append_assoc.
Qed.

(** C1. The transcript of a document of any number of pages is the
    concatenation, in page order, of what each page contributes followed by
    a line break.  A page that contributes something contributes text that
    itself ends with a line break, so that a blank line follows it. *)
Theorem plain_text_concatenation (pages : list OCRPage) :
  extract_text pages =
    String.concat "" (map (fun page => page_text page ++ nl) pages)
  /\ (forall page,
        page_text page = "" \/
        exists u, page_text page ++ nl = u ++ nl ++ nl).
Proof.
  split.
  - unfold extract_text. now rewrite fold_add_page.
  - intros page. unfold page_text.
    destruct (paragraphs page) as [[|p ps]|].
    + now left.
    + right. destruct (lines_end_with_break (p :: ps)) as [u Hu]; [discriminate|].
      exists u. rewrite Hu. now rewrite append_assoc.
    + destruct (markdown page) as [md|]; [right | now left].
      exists (markdown_to_text md). now rewrite append_assoc.
Qed.

(** C2. The heading markers are removed one after the other, ["# "] first:
    that removes the end of every ["## "] and ["### "], whose first
    characters stay in the text. *)
Theorem heading_marker_left_behind :
  extract_text [markdown_page "## Title"] = "#Title" ++ nl ++ nl
  /\ extract_text [markdown_page "### Title"] = "##Title" ++ nl ++ nl
  /\ extract_text [markdown_page "# Title"] = "Title" ++ nl ++ nl
  /\ (forall rest,
        Py.replace "# " "" ("## " ++ rest) = "#" ++ Py.replace "# " "" rest)
  /\ (forall rest,
        Py.replace "# " "" ("### " ++ rest) = "##" ++ Py.replace "# " "" rest).
Proof.
  split; [reflexivity|]. split; [reflexivity|]. split; [reflexivity|].
  split; intros rest; unfold Py.replace; cbn [append Py.replace_from];
    destruct rest; reflexivity.
Qed.

End PlainText.

(** ** Markdown normalization *)

Section CombinedMarkdown.

Lemma replace_images_empty (md : string) : replace_images_in_markdown md [] = md.
Proof. reflexivity. Qed.

Lemma combine_page_error (markdowns : list string) (page : OCRPage) (e : exn) :
  combine_page markdowns page = inl e -> e = AttributeError "markdown".
Proof.
  unfold combine_page, get_markdown, bind, ok, raise.
  destruct (images page), (markdown page); congruence.
Qed.

Lemma combine_pages_missing_markdown
    (pages : list OCRPage) (page : OCRPage) (imgs : list OCRImage) :
  In page pages -> images page = Some imgs -> markdown page = None ->
  forall markdowns,
    combine_pages markdowns pages = raise (AttributeError "markdown").
Proof.
  intros Hin Himg Hmd.
  induction pages as [|p pages IH]; [contradiction|].
  intros markdowns. cbn [combine_pages].
  destruct (combine_page markdowns p) as [e|markdowns'] eqn:E.
  - apply combine_page_error in E. now subst e.
  - cbn [bind]. destruct Hin as [->|Hin]; [|now apply IH].
    unfold combine_page, get_markdown in E. rewrite Himg, Hmd in E.
    discriminate E.
Qed.

(** C5. A page with markdown and without images, or with an empty list of
    images, adds its markdown to the combined document as it is. *)
Theorem markdown_unchanged_without_images
    (page : OCRPage) (md : string) (markdowns : list string)
    (rest : list OCRPage) :
  markdown page = Some md ->
  images page = None \/ images page = Some [] ->
  combine_page markdowns page = ok (markdowns ++ [md])%list
  /\ combine_pages markdowns (page :: rest) =
     combine_pages (markdowns ++ [md])%list rest
  /\ get_combined_markdown [page] = ok md.
Proof.
  intros Hmd Himg.
  assert (E : forall acc, combine_page acc page = ok (acc ++ [md])%list).
  { intros acc. unfold combine_page, get_markdown.
    destruct Himg as [-> | ->]; rewrite Hmd; reflexivity. }
  repeat split.
  - apply E.
  - cbn [combine_pages]. now rewrite E.
  - unfold get_combined_markdown. cbn [combine_pages]. now rewrite E.
Qed.

(** C7. A response with no page gives the empty transcript and the empty
    combined markdown, no step raises, and the handler stores the two empty
    strings. *)
Theorem zero_pages_normalize :
  extract_text [] = ""
  /\ get_combined_markdown [] = ok ""
  /\ normalize [] = ok (mkNormalized "" "")
  /\ send_ocr_results [] =
     ([edit_text preview_header;
       set_user_data "ocr_text" "";
       set_user_data "ocr_markdown" "";
       reply_text_markup "📝 Choose a download format:" keyboard],
      ok tt).
Proof. repeat split. Qed.

(** C10. A page with images has its markdown read whether it has one or
    not: a document with a page that has images and no markdown makes the
    markdown normalization raise, no normalized result is produced and the
    handler reports the error instead of storing a result. *)
Theorem images_require_markdown
    (pages : list OCRPage) (page : OCRPage) (imgs : list OCRImage) :
  In page pages -> images page = Some imgs -> markdown page = None ->
  (forall markdowns,
     combine_page markdowns page = raise (AttributeError "markdown"))
  /\ get_combined_markdown pages = raise (AttributeError "markdown")
  /\ normalize pages = raise (AttributeError "markdown")
  /\ send_ocr_results pages =
     ([log_error ("Error processing OCR results: "
                  ++ str_exn (AttributeError "markdown"));
       edit_text ("❌ Error processing OCR results: "
                  ++ str_exn (AttributeError "markdown"))],
      ok tt).
Proof.
  intros Hin Himg Hmd.
  assert (E : get_combined_markdown pages = raise (AttributeError "markdown")).
  { unfold get_combined_markdown.
    now rewrite (combine_pages_missing_markdown pages page imgs). }
  repeat split.
  - intros markdowns. unfold combine_page, get_markdown.
    now rewrite Himg, Hmd.
  - exact E.
  - unfold normalize. now rewrite E.
  - unfold send_ocr_results. now rewrite E.
Qed.

End CombinedMarkdown.

(** ** Preview *)

Section Preview.

(** C4. A transcript of at most 4096 characters is previewed by its first
    4000 characters: in full up to 4000 characters, cut and followed by a
    pointer to the download from 4001 to 4096.  Beyond 4096 characters the
    status message says that the content is too long. *)
Theorem preview_by_length (text_content : string) :
  (String.length text_content <= 4000 ->
   preview_message text_content = preview_header ++ text_content)
  /\ (4000 < String.length text_content <= 4096 ->
      preview_message text_content =
        preview_header ++ Py.take 4000 text_content ++ preview_more
      /\ String.length (Py.take 4000 text_content) = 4000)
  /\ (4096 < String.length text_content ->
      preview_message text_content = preview_too_long).
Proof.
  unfold preview_message.
  destruct (Nat.leb_spec (String.length text_content) 4096) as [L|L];
    destruct (Nat.ltb_spec 4000 (String.length text_content)) as [M|M];
    (split; [|split]); intros H; try lia; try (exfalso; lia).
  - split; [reflexivity | apply length_take; lia].
  - rewrite take_all by exact H. now rewrite append_nil_r.
  - reflexivity.
Qed.

Lemma preview_by_length_witness :
  preview_message transcript_4096 =
    preview_header ++ Py.take 4000 transcript_4096 ++ preview_more
  /\ String.length (Py.take 4000 transcript_4096) = 4000.
Proof.
  apply (proj1 (proj2 (preview_by_length transcript_4096))).
  split; [apply Nat.ltb_lt | apply Nat.leb_le]; vm_compute; reflexivity.
Defined.

(** A transcript of 4096 characters is not shown in full. *)
Lemma preview_4096_truncated :
  String.length transcript_4096 = 4096
  /\ preview_message transcript_4096 =
     preview_header ++ repeat_char "a" 4000 ++ preview_more
  /\ preview_message transcript_4096 <> preview_header ++ transcript_4096.
Proof.
  assert (E : preview_message transcript_4096 =
              preview_header ++ repeat_char "a" 4000 ++ preview_more)
    by (vm_compute; reflexivity).
  split; [|split].
  - vm_compute; reflexivity.
  - exact E.
  - intros H. apply (f_equal String.length) in H.
    rewrite E in H. vm_compute in H. discriminate H.
Qed.

End Preview.

(** ** Runs and their traces *)

Section Runs.

Context {A B : Type}.

Lemma trace_bind (m : io A) (f : A -> io B) :
  exists rest, trace (io_bind m f) = (trace m ++ rest)%list.
Proof.
  destruct m as [t [e|a]]; cbn [io_bind trace fst].
  - exists []. now rewrite app_nil_r.
  - destruct (f a) as [t' r]. now exists t'.
Qed.

Lemma bind_call_ok (a : action) (v : A) (f : A -> io B) :
  io_bind (call a (ok v)) f = (a :: fst (f v), snd (f v)).
Proof.
  unfold call, ok. cbn [io_bind]. now destruct (f v).
Qed.

Lemma bind_lift_ok (v : A) (f : A -> io B) :
  io_bind (lift (ok v)) f = f v.
Proof.
  unfold lift, ok. cbn [io_bind]. now destruct (f v).
Qed.

Lemma bind_emit (a : action) (k : unit -> io B) :
  io_bind (emit a) k = (a :: fst (k tt), snd (k tt)).
Proof.
  unfold emit, ok. cbn [io_bind]. now destruct (k tt).
Qed.

End Runs.

Lemma trace_try_except (body : io unit) (handler : exn -> io unit) :
  exists rest, trace (try_except body handler) = (trace body ++ rest)%list.
Proof.
  destruct body as [t [e|u]]; cbn [try_except trace fst].
  - destruct (handler e) as [t' r]. now exists t'.
  - exists []. now rewrite app_nil_r.
Qed.

Lemma try_except_ok (t : list action) (handler : exn -> io unit) :
  try_except (t, ok tt) handler = (t, ok tt).
Proof. reflexivity. Qed.

(** ** File acquisition *)

Section Acquisition.

Variable lib : Library.
Variable w : World.

Lemma is_supported_spec (extension : string) :
  is_supported extension = true <-> In extension supported_extensions.
Proof.
  unfold is_supported. rewrite existsb_exists. split.
  - intros [x [Hx E]]. apply String.eqb_eq in E. now subst x.
  - intros H. exists extension. split; [exact H | apply String.eqb_refl].
Qed.

(** C6. An extension passes the allow-list exactly when its lower-cased
    form is [.pdf], [.jpg], [.jpeg] or [.png].  A document with such an
    extension is downloaded; with any other, the handler stops on the
    unsupported-type message after [get_file].  A link whose resolved
    extension passes has its body read; with any other, the handler stops on
    the unsupported-type message after the HTTP GET.  A run stopped that way
    makes no call on the provider. *)
Theorem extension_allow_list (extension : string) :
  (is_supported (Py.lower extension) = true <->
   In (Py.lower extension) [".pdf"; ".jpg"; ".jpeg"; ".png"])
  /\ (forall file_path,
        document_file_path w = ok file_path ->
        path_suffix lib file_path = extension ->
        if is_supported (Py.lower extension)
        then exists rest,
               trace (process_document lib w) =
               reply_text processing_document_msg :: get_file
               :: temp_file (Py.lower extension) :: download_to_memory :: rest
        else process_document lib w =
             ([reply_text processing_document_msg; get_file;
               edit_text unsupported_document_msg], ok tt)
             /\ existsb is_provider_call (trace (process_document lib w)) = false)
  /\ (forall url more response filename,
        link_input_ok lib (url :: more) = true ->
        http_get w url = ok response ->
        status response = 200 ->
        download_filename url (content_disposition response) = ok filename ->
        resolve_extension lib (content_type response) filename = extension ->
        if is_supported (Py.lower extension)
        then exists rest,
               trace (link_command lib w (url :: more)) =
               reply_text processing_link_msg :: session_get url
               :: response_read :: rest
        else link_command lib w (url :: more) =
             ([reply_text processing_link_msg; session_get url;
               edit_text (link_unsupported_msg extension)], ok tt)
             /\ existsb is_provider_call (trace (link_command lib w (url :: more)))
                = false).
Proof.
  split; [apply is_supported_spec | split].
  - intros file_path Hpath Hsuffix.
    unfold process_document. rewrite Hpath, bind_call_ok, Hsuffix.
    destruct (is_supported (Py.lower extension)) eqn:S; cbn [negb].
    + rewrite !bind_emit.
      match goal with
      | |- context [try_except ?body ?h] =>
          destruct (trace_try_except body h) as [rest1 H1]
      end.
      match goal with
      | |- context [io_bind (call download_to_memory ?r) ?k] =>
          destruct (trace_bind (call download_to_memory r) k) as [rest2 H2]
      end.
      unfold trace in *. cbn [fst snd call] in *.
      rewrite H1, H2.
      exists (rest2 ++ rest1)%list. reflexivity.
    + split; reflexivity.
  - intros url more response filename Hok Hget Hstatus Hname Hext.
    unfold link_command. cbn [link_input_ok] in Hok.
    destruct (urlparse lib url) as [e|[scheme netloc]]; [discriminate Hok|].
    rewrite Hok. unfold fetch.
    rewrite Hget, bind_call_ok, Hstatus.
    replace (200 =? 200)%nat with true by reflexivity. cbn [negb].
    rewrite Hname, bind_lift_ok, Hext.
    destruct (is_supported (Py.lower extension)) eqn:S; cbn [negb].
    + rewrite !bind_emit.
      match goal with
      | |- context [try_except ?body ?h] =>
          destruct (trace_try_except body h) as [rest1 H1]
      end.
      match goal with
      | |- context [io_bind (call response_read ?r) ?k] =>
          destruct (trace_bind (call response_read r) k) as [rest2 H2]
      end.
      unfold trace in *. cbn [fst snd call] in *.
      rewrite H1, H2.
      exists (rest2 ++ rest1)%list. reflexivity.
    + split; reflexivity.
Qed.

End Acquisition.

(** ** The [/link] command *)

Section Link.

Variable lib : Library.
Variable w : World.

(** C8. Without an argument [/link] answers with the usage message; with
    an argument that does not parse with a scheme and a host it answers with
    an invalid-URL message.  In both cases the answer is the only call of
    the run: nothing is downloaded, uploaded or sent to the OCR. *)
Theorem link_rejects_bad_input (args : list string) :
  link_input_ok lib args = false ->
  exists msg,
    link_command lib w args = ([reply_text msg], ok tt)
    /\ msg = match args with
             | [] => link_usage_msg
             | url :: _ =>
                 match urlparse lib url with
                 | inl _ => link_malformed_msg
                 | inr _ => link_invalid_msg
                 end
             end
    /\ existsb is_network_call (trace (link_command lib w args)) = false.
Proof.
  intros H. destruct args as [|url more].
  - exists link_usage_msg. repeat split.
  - cbn [link_input_ok] in H. unfold link_command.
    destruct (urlparse lib url) as [e|[scheme netloc]].
    + exists link_malformed_msg. repeat split.
    + rewrite H. exists link_invalid_msg. repeat split.
Qed.

(** C9. The extension of a download is the one the MIME table gives for
    the content type; when the table gives nothing, the suffix of the file
    name; when there is no suffix either, [.jpg] if the content type
    contains [image] and [.pdf] if not.  That extension is the one the
    temporary file of the download gets. *)
Theorem extension_fallback_chain (content_type_value filename : string) :
  (forall e,
     guess_extension lib content_type_value = Some e -> e <> "" ->
     resolve_extension lib content_type_value filename = e)
  /\ (nothing (guess_extension lib content_type_value) ->
      path_suffix lib filename <> "" ->
      resolve_extension lib content_type_value filename = path_suffix lib filename)
  /\ (nothing (guess_extension lib content_type_value) ->
      path_suffix lib filename = "" ->
      resolve_extension lib content_type_value filename =
      if Py.contains "image" content_type_value then ".jpg" else ".pdf")
  /\ (forall url response body,
        http_get w url = ok response ->
        status response = 200 ->
        content_type response = content_type_value ->
        download_filename url (content_disposition response) = ok filename ->
        is_supported
          (Py.lower (resolve_extension lib content_type_value filename)) = true ->
        read response = ok body ->
        exists rest,
          trace (fetch lib w url) =
          session_get url :: response_read
          :: temp_file (resolve_extension lib content_type_value filename)
          :: rest).
Proof.
  split; [|split; [|split]].
  - unfold resolve_extension.
    intros e -> Hne. destruct e; [contradiction | reflexivity].
  - unfold resolve_extension, nothing.
    intros [-> | ->] Hs; destruct (path_suffix lib filename);
      try contradiction; reflexivity.
  - unfold resolve_extension, nothing.
    intros [-> | ->] ->; reflexivity.
  - intros url response body Hget Hstatus Hct Hname Hsup Hread.
    unfold fetch. rewrite Hget, bind_call_ok, Hstatus.
    replace (200 =? 200)%nat with true by reflexivity. cbn [negb].
    rewrite Hname, bind_lift_ok, Hct.
    rewrite Hsup, Hread. cbn [negb].
    rewrite bind_call_ok, bind_emit.
    unfold trace. cbn [fst]. eexists. reflexivity.
Qed.

End Link.

(** ** Instances *)

Lemma markdown_unchanged_without_images_witness :
  combine_page ["# One"] (markdown_page "Two") = ok ["# One"; "Two"]
  /\ combine_pages ["# One"] [markdown_page "Two"; image_page "Three" []] =
     combine_pages ["# One"; "Two"] [image_page "Three" []]
  /\ get_combined_markdown [markdown_page "Two"] = ok "Two".
Proof.
  apply (markdown_unchanged_without_images (markdown_page "Two") "Two" ["# One"]
           [image_page "Three" []]).
  - reflexivity.
  - left. reflexivity.
Defined.

Lemma images_require_markdown_witness :
  (forall markdowns,
     combine_page markdowns paragraph_page_with_images =
     raise (AttributeError "markdown"))
  /\ get_combined_markdown [markdown_page "# Title"; paragraph_page_with_images] =
     raise (AttributeError "markdown")
  /\ normalize [markdown_page "# Title"; paragraph_page_with_images] =
     raise (AttributeError "markdown")
  /\ send_ocr_results [markdown_page "# Title"; paragraph_page_with_images] =
     ([log_error ("Error processing OCR results: "
                  ++ str_exn (AttributeError "markdown"));
       edit_text ("❌ Error processing OCR results: "
                  ++ str_exn (AttributeError "markdown"))],
      ok tt).
Proof.
  apply (images_require_markdown
           [markdown_page "# Title"; paragraph_page_with_images]
           paragraph_page_with_images [imgA]).
  - right. left. reflexivity.
  - reflexivity.
  - reflexivity.
Defined.

Lemma extension_allow_list_witness :
  exists rest,
    trace (process_document sample_library
             (sample_world "documents/file_1.PDF" None)) =
    reply_text processing_document_msg :: get_file
    :: temp_file ".pdf" :: download_to_memory :: rest.
Proof.
  exact (proj1 (proj2 (extension_allow_list sample_library
                         (sample_world "documents/file_1.PDF" None) ".PDF"))
           "documents/file_1.PDF" eq_refl eq_refl).
Defined.

Lemma link_rejects_bad_input_witness :
  exists msg,
    link_command sample_library (sample_world "" None) ["example.com/file.pdf"] =
    ([reply_text msg], ok tt)
    /\ msg = link_invalid_msg
    /\ existsb is_network_call
         (trace (link_command sample_library (sample_world "" None)
                   ["example.com/file.pdf"])) = false.
Proof.
  apply (link_rejects_bad_input sample_library (sample_world "" None)
           ["example.com/file.pdf"]).
  reflexivity.
Defined.

Lemma extension_fallback_chain_witness :
  resolve_extension sample_library "image/webp" "scan" = ".jpg".
Proof.
  apply (proj1 (proj2 (proj2
           (extension_fallback_chain sample_library (sample_world "" None)
              "image/webp" "scan")))).
  - left. reflexivity.
  - reflexivity.
Defined.

(** * Further properties *)

(** ** Replacement where nothing matches *)

Section ReplaceAbsent.

Lemma replace_from_absent (old new s : string) :
  Py.contains old s = false -> Py.replace_from old new 0 s = s.
Proof.
  induction s as [|c s IH]; intros H; [reflexivity|].
  rewrite contains_cons in H. apply orb_false_iff in H. destruct H as [P H].
  rewrite replace_from_keep by exact P. now rewrite IH.
Qed.

Lemma replace_absent (old new s : string) :
  Py.contains old s = false -> Py.replace old new s = s.
Proof.
  intros H. destruct old as [|a o].
  - destruct s; discriminate H.
  - now apply replace_from_absent.
Qed.

(** A pattern occurs only where its tail occurs. *)
Lemma contains_tail (a : ascii) (x s : string) :
  Py.contains x s = false -> Py.contains (String a x) s = false.
Proof.
  induction s as [|c s IH]; intros H; [reflexivity|].
  rewrite contains_cons in *. apply orb_false_iff in H. destruct H as [_ H].
  rewrite (IH H), orb_false_r.
  destruct (String.prefix (String a x) (String c s)) eqn:P; [|reflexivity].
  apply prefix_cons in P. destruct P as [_ P].
  apply contains_prefix in P. congruence.
Qed.

End ReplaceAbsent.

(** ** The image map *)

Section ImageMap.

Lemma dict_get_set_same (k v : string) (d : dict) :
  dict_get k (dict_set k v d) = Some v.
Proof.
  induction d as [|[k' v'] d IH]; simpl.
  - now rewrite String.eqb_refl.
  - destruct (String.eqb k' k) eqn:E; simpl.
    + now rewrite String.eqb_refl.
    + now rewrite E.
Qed.

Lemma dict_get_set_other (k k0 v : string) (d : dict) :
  k0 <> k -> dict_get k (dict_set k0 v d) = dict_get k d.
Proof.
  intros Hne. induction d as [|[k' v'] d IH]; simpl.
  - apply String.eqb_neq in Hne. now rewrite Hne.
  - destruct (String.eqb k' k0) eqn:E; simpl.
    + apply String.eqb_eq in E. subst k'.
      apply String.eqb_neq in Hne. now rewrite Hne.
    + now rewrite IH.
Qed.

Lemma dict_set_keys (k v : string) (d : dict) (item : string * string) :
  In item (dict_set k v d) -> fst item = k \/ In (fst item) (map fst d).
Proof.
  induction d as [|[k' v'] d IH]; simpl.
  - intros [<-|[]]. now left.
  - destruct (String.eqb k' k) eqn:E.
    + intros [<-|H]; [now left | right; right; now apply in_map].
    + intros [<-|H]; [right; now left|].
      destruct (IH H) as [L|R]; [now left | right; now right].
Qed.

Lemma dict_set_nodup (k v : string) (d : dict) :
  NoDup (map fst d) -> NoDup (map fst (dict_set k v d)).
Proof.
  induction d as [|[k' v'] d IH]; simpl; intros H.
  - constructor; [intros [] | constructor].
  - destruct (String.eqb k' k) eqn:E.
    + apply String.eqb_eq in E. now subst k'.
    + inversion H as [|? ? Hnot Hd]; subst. constructor; [|now apply IH].
      intros Hin. apply in_map_iff in Hin. destruct Hin as [item [Hk Hin]].
      apply dict_set_keys in Hin. cbn [fst] in *.
      destruct Hin as [L|R].
      * apply String.eqb_neq in E. congruence.
      * rewrite Hk in R. contradiction.
Qed.

Lemma fold_add_image_keys (imgs : list OCRImage) (d : dict) (item : string * string) :
  In item (fold_left add_image imgs d) ->
  In (fst item) (map id imgs) \/ In (fst item) (map fst d).
Proof.
  revert d. induction imgs as [|img imgs IH]; intros d H;
    [right; now apply in_map|].
  cbn [fold_left] in H. destruct (IH _ H) as [L|R].
  - left. now right.
  - apply in_map_iff in R. destruct R as [item' [E R]].
    unfold add_image in R.
    apply dict_set_keys in R. rewrite E in R. destruct R as [R|R].
    + left. left. now symmetry.
    + now right.
Qed.

Lemma fold_add_image_nodup (imgs : list OCRImage) (d : dict) :
  NoDup (map fst d) -> NoDup (map fst (fold_left add_image imgs d)).
Proof.
  revert d. induction imgs as [|img imgs IH]; intros d H; [exact H|].
  cbn [fold_left]. apply IH. now apply dict_set_nodup.
Qed.

Lemma fold_add_image_get (imgs : list OCRImage) (d : dict) (k : string) :
  (forall img, In img imgs -> id img <> k) ->
  dict_get k (fold_left add_image imgs d) = dict_get k d.
Proof.
  revert d. induction imgs as [|img imgs IH]; intros d H; [reflexivity|].
  cbn [fold_left]. rewrite IH by (intros x Hx; apply H; now right).
  apply dict_get_set_other. apply H. now left.
Qed.

End ImageMap.

(** ** Markdown normalization, further *)

Section CombinedMarkdownFurther.

Lemma build_image_data_fold (imgs : list OCRImage) :
  build_image_data imgs = fold_left add_image imgs [].
Proof. reflexivity. Qed.

Lemma replace_images_unreferenced (md : string) (d : dict) :
  (forall item, In item d -> Py.contains (image_ref (fst item)) md = false) ->
  replace_images_in_markdown md d = md.
Proof.
  unfold replace_images_in_markdown.
  induction d as [|[k v] d IH]; intros H; [reflexivity|].
  cbn [fold_left].
  rewrite replace_absent by (apply (H (k, v)); now left).
  apply IH. intros item Hin. apply H. now right.
Qed.

Lemma combine_pages_outcome (pages : list OCRPage) (markdowns : list string) :
  combine_pages markdowns pages =
  if existsb missing_markdown pages
  then raise (AttributeError "markdown")
  else ok (markdowns
           ++ flat_map (fun page => option_list (page_markdown page)) pages)%list.
Proof.
  revert markdowns. induction pages as [|page pages IH]; intros markdowns.
  - cbn. now rewrite app_nil_r.
  - cbn [combine_pages existsb flat_map].
    unfold combine_page, get_markdown, missing_markdown at 1, page_markdown at 1.
    destruct (images page) as [imgs|], (markdown page) as [md|];
      cbn [bind ok raise orb option_list app]; try reflexivity;
      rewrite IH; destruct (existsb missing_markdown pages);
      try reflexivity; now rewrite <- app_assoc.
Qed.

(** X1. For a page with one image whose identifier and payload are
    distinct and contain neither ['!'] nor [')'], the combined markdown
    holds no reference [![id](id)] to the image any more, and holds
    [![id](payload)] if the page's markdown held the reference. *)
Theorem single_image_rewrite (page : OCRPage) (i b md : string) :
  images page = Some [mkImage i b] -> markdown page = Some md ->
  free_of "!)" i = true -> free_of "!)" b = true -> i <> b ->
  exists out,
    get_combined_markdown [page] = ok out
    /\ Py.contains (image_ref i) out = false
    /\ (Py.contains (image_ref i) md = true ->
        Py.contains (image_inline i b) out = true).
Proof.
  intros Himg Hmd Hi Hb Hne.
  exists (Py.replace (image_ref i) (image_inline i b) md). split; [|split].
  - unfold get_combined_markdown. cbn [combine_pages].
    unfold combine_page, get_markdown. now rewrite Himg, Hmd.
  - now apply image_ref_removed.
  - apply image_ref_inlined.
Qed.

(** X2. A page whose markdown holds no reference to any of its images
    contributes its markdown unchanged, whatever the images are. *)
Theorem unreferenced_images_leave_markdown
    (page : OCRPage) (imgs : list OCRImage) (md : string) :
  images page = Some imgs -> markdown page = Some md ->
  (forall img, In img imgs -> Py.contains (image_ref (id img)) md = false) ->
  get_combined_markdown [page] = ok md.
Proof.
  intros Himg Hmd H.
  unfold get_combined_markdown. cbn [combine_pages].
  unfold combine_page, get_markdown. rewrite Himg, Hmd. cbn [bind ok app].
  rewrite replace_images_unreferenced; [reflexivity|].
  intros item Hin. rewrite build_image_data_fold in Hin.
  apply fold_add_image_keys in Hin. destruct Hin as [Hin|[]].
  apply in_map_iff in Hin. destruct Hin as [img [E Hin]].
  rewrite <- E. now apply H.
Qed.

(** X3. The image map has one entry per identifier; when several images
    of a page share an identifier, the payload kept is that of the last. *)
Theorem image_map_last_wins (before after : list OCRImage) (img : OCRImage) :
  (forall x, In x after -> id x <> id img) ->
  dict_get (id img) (build_image_data (before ++ img :: after)%list) =
    Some (image_base64 img)
  /\ NoDup (map fst (build_image_data (before ++ img :: after)%list)).
Proof.
  intros H. rewrite build_image_data_fold. split.
  - rewrite fold_left_app. cbn [fold_left].
    rewrite fold_add_image_get by exact H.
    apply dict_get_set_same.
  - apply fold_add_image_nodup. constructor.
Qed.

(** X4. The markdown normalization raises exactly when some page has
    images and no markdown; otherwise it joins, with a blank line between
    them, what the pages with markdown contribute, and skips the pages that
    have neither images nor markdown. *)
Theorem combined_markdown_outcome (pages : list OCRPage) :
  get_combined_markdown pages =
  if existsb missing_markdown pages
  then raise (AttributeError "markdown")
  else ok (Py.join (nl ++ nl)
             (flat_map (fun page => option_list (page_markdown page)) pages)).
Proof.
  unfold get_combined_markdown. rewrite combine_pages_outcome.
  now destruct (existsb missing_markdown pages).
Qed.

End CombinedMarkdownFurther.

(** ** Plain text, further *)

Section PlainTextFurther.

(** X5. The transcript of two documents put end to end is the transcript
    of the first followed by the transcript of the second. *)
Theorem extract_text_app (first second : list OCRPage) :
  extract_text (first ++ second)%list = extract_text first ++ extract_text second.
Proof.
  unfold extract_text.
  now rewrite !fold_add_page, map_app, concat_empty_app.
Qed.

End PlainTextFurther.

Lemma single_image_rewrite_witness :
  exists out,
    get_combined_markdown [image_page "Plan: ![fig-1.png](fig-1.png)"
                             [mkImage "fig-1.png" "data:image/png;base64,iVBOR"]]
    = ok out
    /\ Py.contains (image_ref "fig-1.png") out = false
    /\ (Py.contains (image_ref "fig-1.png") "Plan: ![fig-1.png](fig-1.png)" = true ->
        Py.contains (image_inline "fig-1.png" "data:image/png;base64,iVBOR") out
        = true).
Proof.
  apply (single_image_rewrite
           (image_page "Plan: ![fig-1.png](fig-1.png)"
              [mkImage "fig-1.png" "data:image/png;base64,iVBOR"])
           "fig-1.png" "data:image/png;base64,iVBOR");
    try reflexivity.
  discriminate.
Defined.

Lemma unreferenced_images_leave_markdown_witness :
  get_combined_markdown [image_page "See ![imgB](imgB)." [imgA]] =
  ok "See ![imgB](imgB).".
Proof.
  apply (unreferenced_images_leave_markdown
           (image_page "See ![imgB](imgB)." [imgA]) [imgA]); try reflexivity.
  intros img [<-|[]]. reflexivity.
Defined.

Lemma image_map_last_wins_witness :
  dict_get "a" (build_image_data
                  ([mkImage "a" "OLD"] ++ mkImage "a" "NEW" :: [mkImage "b" "B"])%list) =
    Some "NEW"
  /\ NoDup (map fst (build_image_data
                       ([mkImage "a" "OLD"] ++ mkImage "a" "NEW" :: [mkImage "b" "B"])%list)).
Proof.
  apply (image_map_last_wins [mkImage "a" "OLD"] [mkImage "b" "B"]
           (mkImage "a" "NEW")).
  intros x [<-|[]]. discriminate.
Defined.

(** ** Splitting and joining on one character *)

Section SplitJoin.

Variable c : ascii.

Local Abbreviation sep := (String c "").

Lemma rev_string_acc (acc s : string) :
  Py.rev_string acc s = Py.rev_string "" s ++ acc.
Proof.
  revert acc. induction s as [|a s IH]; intros acc; [reflexivity|].
  cbn [Py.rev_string]. rewrite IH, (IH (String a "")).
  now rewrite append_assoc.
Qed.

Lemma rev_string_cons (a : ascii) (cur : string) :
  Py.rev_string "" (String a cur) = Py.rev_string "" cur ++ String a "".
Proof. cbn [Py.rev_string]. apply rev_string_acc. Qed.

Lemma sep_at_head (a : ascii) (s : string) :
  String.prefix sep (String a s) = Ascii.eqb c a.
Proof.
  destruct (Ascii.eqb_spec c a) as [E|N].
  - apply prefix_cons. split; [exact E | apply prefix_empty].
  - destruct (String.prefix sep (String a s)) eqn:P; [|reflexivity].
    apply prefix_cons in P. now destruct P.
Qed.

Lemma split_from_sep (cur s : string) :
  Py.split_from sep 0 cur (String c s) =
  Py.rev_string "" cur :: Py.split_from sep 0 "" s.
Proof.
  cbn [Py.split_from]. now rewrite sep_at_head, Ascii.eqb_refl.
Qed.

Lemma split_from_other (a : ascii) (cur s : string) :
  a <> c ->
  Py.split_from sep 0 cur (String a s) = Py.split_from sep 0 (String a cur) s.
Proof.
  intros N. cbn [Py.split_from]. rewrite sep_at_head.
  destruct (Ascii.eqb_spec c a) as [E|_]; [now symmetry in E | reflexivity].
Qed.

Lemma split_from_nonempty (k : nat) (cur s : string) :
  Py.split_from sep k cur s <> [].
Proof.
  revert k cur. induction s as [|a s IH]; intros k cur; [discriminate|].
  cbn [Py.split_from]. destruct k as [|k]; [|apply IH].
  destruct (String.prefix sep (String a s)); [discriminate | apply IH].
Qed.

Lemma join_cons (x : string) (l : list string) :
  l <> [] -> Py.join sep (x :: l) = x ++ sep ++ Py.join sep l.
Proof. destruct l; [contradiction | reflexivity]. Qed.

(** Joining what was split gives the text back. *)
Lemma join_split_from (cur s : string) :
  Py.join sep (Py.split_from sep 0 cur s) = Py.rev_string "" cur ++ s.
Proof.
  revert cur. induction s as [|a s IH]; intros cur.
  - cbn. now rewrite append_nil_r.
  - destruct (ascii_dec a c) as [->|N].
    + rewrite split_from_sep, join_cons by apply split_from_nonempty.
      now rewrite IH.
    + rewrite split_from_other by exact N.
      rewrite IH, rev_string_cons. now rewrite append_assoc.
Qed.

Lemma free_of_sep_head (a : ascii) (s : string) :
  free_of sep (String a s) = true -> a <> c /\ free_of sep s = true.
Proof.
  simpl. rewrite orb_false_r. intros H.
  apply andb_true_iff in H. destruct H as [H1 H2]. split; [|exact H2].
  intros ->. now rewrite Ascii.eqb_refl in H1.
Qed.

(** A text without the separator is one field. *)
Lemma split_from_free (cur x : string) :
  free_of sep x = true ->
  Py.split_from sep 0 cur x = [Py.rev_string "" cur ++ x].
Proof.
  revert cur. induction x as [|a x IH]; intros cur H.
  - cbn. now rewrite append_nil_r.
  - apply free_of_sep_head in H. destruct H as [N H].
    rewrite split_from_other by exact N.
    rewrite IH by exact H. rewrite rev_string_cons. now rewrite append_assoc.
Qed.

Lemma split_from_field (cur x rest : string) :
  free_of sep x = true ->
  Py.split_from sep 0 cur (x ++ String c rest) =
  (Py.rev_string "" cur ++ x) :: Py.split_from sep 0 "" rest.
Proof.
  revert cur. induction x as [|a x IH]; intros cur H.
  - cbn [append]. rewrite split_from_sep. now rewrite append_nil_r.
  - apply free_of_sep_head in H. destruct H as [N H].
    change (String a x ++ String c rest) with (String a (x ++ String c rest)).
    rewrite split_from_other by exact N.
    rewrite IH by exact H. rewrite rev_string_cons. now rewrite append_assoc.
Qed.

(** Splitting what was joined gives the fields back, when there is a field
    and no field holds the separator. *)
Lemma split_join (x : string) (l : list string) :
  Forall (fun field => free_of sep field = true) (x :: l) ->
  Py.split sep (Py.join sep (x :: l)) = x :: l.
Proof.
  unfold Py.split. revert x. induction l as [|y l IH]; intros x H.
  - inversion H; subst. cbn [Py.join String.concat].
    now rewrite split_from_free.
  - inversion H as [|? ? Hx Hl]; subst.
    rewrite join_cons by discriminate.
    change (x ++ sep ++ Py.join sep (y :: l))
      with (x ++ String c (Py.join sep (y :: l))).
    rewrite split_from_field by exact Hx.
    now rewrite IH.
Qed.

Lemma free_of_rev (acc s : string) :
  free_of sep (Py.rev_string acc s) = free_of sep s && free_of sep acc.
Proof.
  revert acc. induction s as [|a s IH]; intros acc; [reflexivity|].
  cbn [Py.rev_string]. rewrite IH. simpl.
  rewrite orb_false_r. destruct (free_of sep s), (Ascii.eqb a c); reflexivity.
Qed.

(** No field of a split holds the separator. *)
Lemma split_from_fields_free (cur s : string) :
  free_of sep cur = true ->
  Forall (fun field => free_of sep field = true) (Py.split_from sep 0 cur s).
Proof.
  revert cur. induction s as [|a s IH]; intros cur H.
  - constructor; [|constructor]. rewrite free_of_rev. now rewrite H.
  - destruct (ascii_dec a c) as [->|N].
    + rewrite split_from_sep. constructor; [|now apply IH].
      rewrite free_of_rev. now rewrite H.
    + rewrite split_from_other by exact N. apply IH.
      simpl. rewrite orb_false_r, H.
      destruct (Ascii.eqb_spec a c) as [E|_]; [contradiction | reflexivity].
Qed.

End SplitJoin.

(** ** The markdown fallback *)

Section MarkdownFallback.

Lemma filter_all {A : Type} (f : A -> bool) (l : list A) :
  forallb f l = true -> filter f l = l.
Proof.
  induction l as [|x l IH]; [reflexivity|].
  cbn [forallb filter]. intros H. apply andb_true_iff in H.
  destruct H as [Hx Hl]. now rewrite Hx, IH.
Qed.

Lemma forallb_filter_same {A : Type} (f : A -> bool) (l : list A) :
  forallb f (filter f l) = true.
Proof.
  apply forallb_forall. intros x Hx. now apply filter_In in Hx.
Qed.

(** X6. A markdown that holds no ["# "] and no line starting with ["!["]
    or ["<img"] is its own text: the fallback changes nothing. *)
Theorem plain_markdown_unchanged (md : string) :
  Py.contains "# " md = false ->
  forallb keep_line (Py.split nl md) = true ->
  markdown_to_text md = md.
Proof.
  intros Hhash Hlines. unfold markdown_to_text.
  assert (H2 : Py.contains "## " md = false) by now apply contains_tail.
  assert (H3 : Py.contains "### " md = false) by now apply contains_tail.
  rewrite (replace_absent "# " "" md Hhash).
  rewrite (replace_absent "## " "" md H2).
  rewrite (replace_absent "### " "" md H3).
  rewrite filter_all by exact Hlines.
  unfold Py.split, nl. now rewrite join_split_from.
Qed.

(** X7. No line of the text the fallback gives starts with ["!["] or with
    ["<img"]. *)
Theorem no_image_line_in_text (md : string) :
  forallb keep_line (Py.split nl (markdown_to_text md)) = true.
Proof.
  unfold markdown_to_text.
  set (md_text := Py.replace "### " "" (Py.replace "## " "" (Py.replace "# " "" md))).
  assert (F : Forall (fun field => free_of nl field = true)
                (filter keep_line (Py.split nl md_text))).
  { apply Forall_forall. intros x Hx. apply filter_In in Hx. destruct Hx as [Hx _].
    revert x Hx. apply Forall_forall.
    unfold Py.split, nl. now apply split_from_fields_free. }
  destruct (filter keep_line (Py.split nl md_text)) as [|x l] eqn:E.
  - reflexivity.
  - unfold nl in *. rewrite split_join by exact F.
    rewrite <- E. apply forallb_filter_same.
Qed.

End MarkdownFallback.

(** ** Preview, further *)

Section PreviewFurther.

Lemma length_take_le (n : nat) (s : string) : String.length (Py.take n s) <= n.
Proof.
  unfold Py.take. revert n. induction s as [|a s IH]; intros [|n]; simpl; try lia.
  specialize (IH n). lia.
Qed.

(** X8. Whatever the transcript, the status message is never longer than
    the preview header, 4000 characters of transcript and the pointer to the
    download. *)
Theorem preview_bounded (text_content : string) :
  String.length (preview_message text_content) <=
  String.length preview_header + 4000 + String.length preview_more.
Proof.
  unfold preview_message.
  destruct (String.length text_content <=? 4096)%nat.
  - rewrite !length_append.
    pose proof (length_take_le 4000 text_content) as T.
    destruct (4000 <? String.length text_content)%nat.
    + lia.
    + change (String.length "") with 0. lia.
  - assert (L : String.length preview_too_long <= 4000)
      by (apply Nat.leb_le; vm_compute; reflexivity).
    lia.
Qed.

End PreviewFurther.

Lemma plain_markdown_unchanged_witness :
  markdown_to_text ("Invoice #12" ++ nl ++ "Total: 40 EUR") =
  "Invoice #12" ++ nl ++ "Total: 40 EUR".
Proof.
  apply (plain_markdown_unchanged ("Invoice #12" ++ nl ++ "Total: 40 EUR"));
    reflexivity.
Defined.

(** ** Runs, further *)

Section RunsFurther.

Context {A B : Type}.

Lemma snd_bind (m : io A) (k : A -> io B) :
  snd (io_bind m k) =
  match snd m with
  | inl e => inl e
  | inr a => snd (k a)
  end.
Proof.
  destruct m as [t [e|a]]; cbn [io_bind snd]; [reflexivity|].
  now destruct (k a).
Qed.

Lemma existsb_bind (f : action -> bool) (m : io A) (k : A -> io B) :
  existsb f (fst (io_bind m k)) =
  existsb f (fst m)
  || match snd m with
     | inl _ => false
     | inr a => existsb f (fst (k a))
     end.
Proof.
  destruct m as [t [e|a]]; cbn [io_bind fst snd].
  - now rewrite orb_false_r.
  - destruct (k a) as [t' r]. cbn [fst]. apply existsb_app.
Qed.

End RunsFurther.

Lemma snd_try_except (body : io unit) (handler : exn -> io unit) :
  (forall e, snd (handler e) = ok tt) ->
  snd (try_except body handler) = ok tt.
Proof.
  intros H. destruct body as [t [e|[]]]; cbn [try_except snd].
  - specialize (H e). now destruct (handler e).
  - reflexivity.
Qed.

Lemma existsb_try_except (f : action -> bool) (body : io unit)
    (handler : exn -> io unit) :
  existsb f (fst (try_except body handler)) =
  existsb f (fst body)
  || match snd body with
     | inl e => existsb f (fst (handler e))
     | inr _ => false
     end.
Proof.
  destruct body as [t [e|u]]; cbn [try_except fst snd].
  - destruct (handler e) as [t' r]. cbn [fst]. apply existsb_app.
  - now rewrite orb_false_r.
Qed.

Lemma existsb_try_except_quiet (f : action -> bool) (body : io unit)
    (handler : exn -> io unit) :
  (forall e, existsb f (fst (handler e)) = false) ->
  existsb f (fst (try_except body handler)) = existsb f (fst body).
Proof.
  intros H. rewrite existsb_try_except.
  destruct (snd body) as [e|u]; [rewrite H|]; apply orb_false_r.
Qed.

(** ** Handlers *)

Section Handlers.

Variable lib : Library.
Variable w : World.

Lemma send_ocr_results_ends (pages : OCRResponse) :
  snd (send_ocr_results pages) = ok tt.
Proof. unfold send_ocr_results. now apply snd_try_except. Qed.

Lemma send_ocr_results_calls (f : action -> bool) (pages : OCRResponse) :
  (forall msg, f (edit_text msg) = false) ->
  (forall msg, f (log_error msg) = false) ->
  (forall key value, f (set_user_data key value) = false) ->
  (forall msg kb, f (reply_text_markup msg kb) = false) ->
  existsb f (fst (send_ocr_results pages)) = false.
Proof.
  intros H1 H2 H3 H4. unfold send_ocr_results, lift.
  destruct (get_combined_markdown pages) as [e|md];
    cbn; now rewrite ?H1, ?H2, ?H3, ?H4.
Qed.

(** X9. No exception leaves [send_ocr_results], [process_document],
    [process_photo] or [link_command], whatever Telegram's file storage, the
    HTTP client and the provider answer. *)
Theorem handlers_never_raise
    (pages : OCRResponse) (p : Photo) (args : list string) :
  snd (send_ocr_results pages) = ok tt
  /\ snd (process_document lib w) = ok tt
  /\ snd (process_photo w p) = ok tt
  /\ snd (link_command lib w args) = ok tt.
Proof.
  split; [apply send_ocr_results_ends | split; [|split]].
  - unfold process_document. rewrite snd_bind. cbn [emit snd ok].
    now apply snd_try_except.
  - unfold process_photo. rewrite snd_bind. cbn [emit snd ok].
    now apply snd_try_except.
  - unfold link_command. destruct args as [|url more]; [reflexivity|].
    destruct (urlparse lib url) as [e|[scheme netloc]]; [reflexivity|].
    destruct (Py.truthy scheme && Py.truthy netloc); [|reflexivity].
    rewrite snd_bind. cbn [emit snd ok]. now apply snd_try_except.
Qed.

End Handlers.

(** ** Temporary files and provider calls *)

Section Staging.

Variable lib : Library.
Variable w : World.

Lemma send_ocr_results_no_unlink (pages : OCRResponse) :
  existsb is_unlink (fst (send_ocr_results pages)) = false.
Proof. now apply send_ocr_results_calls. Qed.

Lemma send_ocr_results_no_staging (pages : OCRResponse) :
  existsb is_staging_call (fst (send_ocr_results pages)) = false.
Proof. now apply send_ocr_results_calls. Qed.

Lemma submit_unlink (file_name : string) :
  existsb is_unlink (fst (submit w file_name)) =
  match provider_outcome w file_name with
  | inl _ => false
  | inr _ => true
  end.
Proof.
  unfold submit, provider_outcome, call.
  destruct (upload w file_name) as [e|uploaded]; [reflexivity|].
  rewrite existsb_bind. cbn [fst snd existsb is_unlink orb bind].
  destruct (signed_url w uploaded) as [e|signed]; [reflexivity|].
  rewrite existsb_bind. cbn [fst snd existsb is_unlink orb bind].
  destruct (ocr w signed) as [e|pages]; [reflexivity|].
  rewrite existsb_bind. cbn [fst snd existsb is_unlink orb].
  rewrite existsb_bind. reflexivity.
Qed.

(** X10. For a document of a supported type a temporary file is always
    created, and it is removed exactly when the download from Telegram and
    the three provider requests all succeed: a failure of any of them leaves
    the temporary file behind. *)
Theorem temp_file_removed_on_success_only (file_path : string) :
  document_file_path w = ok file_path ->
  is_supported (Py.lower (path_suffix lib file_path)) = true ->
  existsb is_temp_file (trace (process_document lib w)) = true
  /\ existsb is_unlink (trace (process_document lib w)) =
     match download w, provider_outcome w (document_file_name w) with
     | inr _, inr _ => true
     | _, _ => false
     end.
Proof.
  intros Hpath Hsup. unfold process_document, trace.
  rewrite Hpath. split.
  - rewrite existsb_bind, existsb_try_except, existsb_bind.
    cbn [emit call fst snd existsb is_temp_file orb ok].
    rewrite Hsup. cbn [negb]. rewrite existsb_bind. reflexivity.
  - rewrite existsb_bind.
    rewrite existsb_try_except_quiet by (intros e; reflexivity).
    rewrite existsb_bind.
    cbn [emit call fst snd existsb is_unlink orb ok].
    rewrite Hsup. cbn [negb].
    rewrite existsb_bind. cbn [emit fst snd existsb is_unlink orb ok].
    rewrite existsb_bind. cbn [call fst snd existsb is_unlink orb].
    destruct (download w) as [e|[]]; [reflexivity|].
    rewrite submit_unlink.
    now destruct (provider_outcome w (document_file_name w)).
Qed.

End Staging.

(** ** When the provider is called *)

Section ProviderCalls.

Variable lib : Library.
Variable w : World.

(** X11. [process_document] calls the provider only for a file whose
    lower-cased extension is in the allow-list and whose download from
    Telegram succeeded. *)
Theorem provider_needs_supported_document :
  existsb is_provider_call (trace (process_document lib w)) = true ->
  exists file_path,
    document_file_path w = ok file_path
    /\ is_supported (Py.lower (path_suffix lib file_path)) = true
    /\ download w = ok tt.
Proof.
  unfold process_document, trace.
  rewrite existsb_bind.
  rewrite existsb_try_except_quiet by (intros e; reflexivity).
  rewrite existsb_bind.
  cbn [emit call fst snd existsb is_provider_call orb ok].
  destruct (document_file_path w) as [e|file_path]; [discriminate|].
  destruct (is_supported (Py.lower (path_suffix lib file_path))) eqn:S;
    cbn [negb]; [|discriminate].
  rewrite existsb_bind. cbn [emit fst snd existsb is_provider_call orb ok].
  rewrite existsb_bind. cbn [call fst snd existsb is_provider_call orb].
  destruct (download w) as [e|[]]; [discriminate|].
  intros _. now exists file_path.
Qed.

Lemma fetch_provider_call (url : string) :
  existsb is_provider_call (fst (fetch lib w url)) = true ->
  exists response filename body,
    http_get w url = ok response
    /\ status response = 200
    /\ download_filename url (content_disposition response) = ok filename
    /\ is_supported
         (Py.lower (resolve_extension lib (content_type response) filename)) = true
    /\ read response = ok body.
Proof.
  unfold fetch. rewrite existsb_bind.
  cbn [call fst snd existsb is_provider_call orb].
  destruct (http_get w url) as [e|response] eqn:G; [discriminate|].
  destruct (Nat.eqb_spec (status response) 200) as [E|N];
    cbn [negb]; [|discriminate].
  rewrite existsb_bind. cbn [lift fst snd existsb orb].
  destruct (download_filename url (content_disposition response))
    as [e|filename] eqn:F; [discriminate|].
  destruct (is_supported
              (Py.lower (resolve_extension lib (content_type response) filename)))
    eqn:S; cbn [negb]; [|discriminate].
  rewrite existsb_bind. cbn [call fst snd existsb is_provider_call orb].
  destruct (read response) as [e|body] eqn:R; [discriminate|].
  intros _. exists response, filename, body.
  repeat split; assumption || reflexivity.
Qed.

(** X12. [link_command] calls the provider only when the argument parses
    with a scheme and a host, the GET answers 200, the resolved extension is
    in the allow-list and the body was read. *)
Theorem provider_needs_supported_link (args : list string) :
  existsb is_provider_call (trace (link_command lib w args)) = true ->
  exists url more response filename body,
    args = url :: more
    /\ link_input_ok lib args = true
    /\ http_get w url = ok response
    /\ status response = 200
    /\ download_filename url (content_disposition response) = ok filename
    /\ is_supported
         (Py.lower (resolve_extension lib (content_type response) filename)) = true
    /\ read response = ok body.
Proof.
  unfold link_command, trace. destruct args as [|url more]; [discriminate|].
  cbn [link_input_ok].
  destruct (urlparse lib url) as [e|[scheme netloc]]; [discriminate|].
  destruct (Py.truthy scheme && Py.truthy netloc); [|discriminate].
  rewrite existsb_bind.
  rewrite existsb_try_except_quiet by (intros e; reflexivity).
  cbn [emit fst snd existsb is_provider_call orb ok].
  intros H. apply fetch_provider_call in H.
  destruct H as [response [filename [body H]]].
  exists url, more, response, filename, body. now repeat split.
Qed.

End ProviderCalls.

(** ** Photos *)

Section Photos.

Variable w : World.
Variable p : Photo.

(** X13. When the [file_path] of the photo file is a string that starts
    with [http], the OCR is asked to read that URL right after [get_file],
    and nothing is downloaded, written to a temporary file or uploaded.
    When it is a string that does not start with [http], or when the file
    has no such attribute, the photo is downloaded into a temporary [.jpg]
    file first.  When it is [None], [startswith] raises: the handler reports
    the error and neither stages a file nor calls the provider. *)
Theorem photo_url_shortcut (file_path : file_path_attr) :
  photo_file_path p = ok file_path ->
  match file_path with
  | Str path =>
      if Py.startswith path "http"
      then existsb is_staging_call (trace (process_photo w p)) = false
           /\ exists rest,
                trace (process_photo w p) =
                reply_text processing_photo_msg :: get_file
                :: ocr_process path :: rest
      else exists rest,
             trace (process_photo w p) =
             reply_text processing_photo_msg :: get_file
             :: temp_file ".jpg" :: download_to_memory :: rest
  | Missing =>
      exists rest,
        trace (process_photo w p) =
        reply_text processing_photo_msg :: get_file
        :: temp_file ".jpg" :: download_to_memory :: rest
  | PyNone =>
      process_photo w p =
      ([reply_text processing_photo_msg; get_file;
        log_error ("Error processing photo: "
                   ++ "'NoneType' object has no attribute 'startswith'");
        edit_text ("❌ Error processing photo: "
                   ++ "'NoneType' object has no attribute 'startswith'")],
       ok tt)
  end.
Proof.
  intros Hpath. unfold process_photo, trace. rewrite Hpath.
  assert (Hstaged : exists rest,
            fst (emit (reply_text processing_photo_msg) ;;;
                 try_except
                   (file_path <~ call get_file (ok file_path) ;;
                    ocr_response <~ upload_photo w p ;;
                    send_ocr_results ocr_response)
                   (fun e =>
                      emit (log_error ("Error processing photo: " ++ str_exn e)) ;;;
                      emit (edit_text ("❌ Error processing photo: " ++ str_exn e))))
            = reply_text processing_photo_msg :: get_file
              :: temp_file ".jpg" :: download_to_memory :: rest).
  { rewrite bind_emit, bind_call_ok. cbn [fst].
    match goal with
    | |- context [try_except ?body ?h] =>
        destruct (trace_try_except body h) as [rest1 H1]
    end.
    unfold trace in H1. rewrite H1. cbn [fst].
    destruct (trace_bind (upload_photo w p)
                (fun ocr_response => send_ocr_results ocr_response))
      as [rest2 H2].
    unfold trace in H2. rewrite H2.
    unfold upload_photo. rewrite bind_emit. cbn [fst].
    match goal with
    | |- context [io_bind (call download_to_memory ?r) ?k] =>
        destruct (trace_bind (call download_to_memory r) k) as [rest3 H3]
    end.
    unfold trace in H3. cbn [call fst] in H3. rewrite H3.
    exists ((rest3 ++ rest2) ++ rest1)%list. reflexivity. }
  destruct file_path as [| |path].
  - revert Hstaged. rewrite !bind_emit, !bind_call_ok. exact (fun H => H).
  - reflexivity.
  - destruct (Py.startswith path "http") eqn:S.
    + split.
      * rewrite existsb_bind.
        rewrite existsb_try_except_quiet by (intros e; reflexivity).
        rewrite existsb_bind.
        cbn [emit call fst snd existsb is_staging_call orb ok].
        rewrite S. rewrite existsb_bind.
        cbn [call fst snd existsb is_staging_call orb].
        destruct (ocr_image p path) as [e|pages]; [reflexivity|].
        apply send_ocr_results_no_staging.
      * rewrite bind_emit, bind_call_ok, S. cbn [fst].
        match goal with
        | |- context [try_except ?body ?h] =>
            destruct (trace_try_except body h) as [rest1 H1]
        end.
        unfold trace in H1. rewrite H1. cbn [fst].
        destruct (trace_bind (call (ocr_process path) (ocr_image p path))
                    (fun ocr_response => send_ocr_results ocr_response))
          as [rest2 H2].
        unfold trace in H2. cbn [call fst] in H2. rewrite H2.
        exists (rest2 ++ rest1)%list. reflexivity.
    + revert Hstaged. rewrite !bind_emit, !bind_call_ok, S. exact (fun H => H).
Qed.

End Photos.

(** ** The download buttons *)

Section Buttons.

Lemma user_data_after_success (pages : OCRResponse) (md : string) (user_data : dict) :
  get_combined_markdown pages = ok md ->
  user_data_after (trace (send_ocr_results pages)) user_data =
  dict_set "ocr_markdown" md (dict_set "ocr_text" (extract_text pages) user_data).
Proof.
  intros H. unfold send_ocr_results. now rewrite H.
Qed.

Lemma user_data_after_failure (pages : OCRResponse) (e : exn) (user_data : dict) :
  get_combined_markdown pages = raise e ->
  user_data_after (trace (send_ocr_results pages)) user_data = user_data.
Proof.
  intros H. unfold send_ocr_results. now rewrite H.
Qed.

Lemma button_txt (user_data : dict) :
  button_callback user_data "format_txt" =
  match get_user_data user_data "ocr_text" with
  | inl e => ([answer], inl e)
  | inr content =>
      ([answer; reply_document "extracted_text.txt" content document_caption], ok tt)
  end.
Proof. reflexivity. Qed.

Lemma button_md (user_data : dict) :
  button_callback user_data "format_md" =
  match get_user_data user_data "ocr_markdown" with
  | inl e => ([answer], inl e)
  | inr content =>
      ([answer; reply_document "extracted_content.md" content document_caption],
       ok tt)
  end.
Proof. reflexivity. Qed.

(** X14. After a run of [send_ocr_results] whose normalization succeeded,
    the [Text] button sends the whole transcript as [extracted_text.txt] and
    the [Markdown] button the combined markdown as [extracted_content.md],
    whatever [user_data] held before. *)
Theorem stored_result_is_delivered
    (pages : OCRResponse) (md : string) (user_data : dict) :
  get_combined_markdown pages = ok md ->
  button_callback (user_data_after (trace (send_ocr_results pages)) user_data)
    "format_txt" =
    ([answer;
      reply_document "extracted_text.txt" (extract_text pages) document_caption],
     ok tt)
  /\ button_callback (user_data_after (trace (send_ocr_results pages)) user_data)
       "format_md" =
     ([answer; reply_document "extracted_content.md" md document_caption], ok tt).
Proof.
  intros H. rewrite (user_data_after_success pages md user_data H).
  rewrite button_txt, button_md. unfold get_user_data.
  rewrite dict_get_set_other by discriminate.
  now rewrite !dict_get_set_same.
Qed.

(** X15. A run of [send_ocr_results] whose normalization raises leaves
    [user_data] as it was: the buttons go on serving the result of the
    run before. *)
Theorem failed_run_keeps_previous_result
    (pages : OCRResponse) (e : exn) (user_data : dict) (data : string) :
  get_combined_markdown pages = raise e ->
  user_data_after (trace (send_ocr_results pages)) user_data = user_data
  /\ button_callback (user_data_after (trace (send_ocr_results pages)) user_data)
       data = button_callback user_data data.
Proof.
  intros H. now rewrite (user_data_after_failure pages e user_data H).
Qed.

(** X16. For callback data [format_<kind>] or [format_<kind>_<more>],
    where [<kind>] holds no underscore, only [<kind>] decides: [txt] and
    [md] send the stored string or raise [KeyError] when nothing is stored,
    [cancel] edits the message, and any other kind is only answered. *)
Theorem button_by_kind (user_data : dict) (kind more : string) :
  free_of "_" kind = true ->
  more = "" \/ (exists r, more = "_" ++ r) ->
  button_callback user_data ("format_" ++ kind ++ more) =
  if String.eqb kind "txt"
  then match dict_get "ocr_text" user_data with
       | Some content =>
           ([answer;
             reply_document "extracted_text.txt" content document_caption],
            ok tt)
       | None => ([answer], raise (Raised "'ocr_text'"))
       end
  else if String.eqb kind "md"
  then match dict_get "ocr_markdown" user_data with
       | Some content =>
           ([answer;
             reply_document "extracted_content.md" content document_caption],
            ok tt)
       | None => ([answer], raise (Raised "'ocr_markdown'"))
       end
  else if String.eqb kind "cancel"
  then ([answer; edit_message_text "❌ Operation cancelled"], ok tt)
  else ([answer], ok tt).
Proof.
  intros Hkind Hmore. unfold button_callback.
  assert (P : Py.startswith ("format_" ++ kind ++ more) "format_" = true)
    by apply prefix_append.
  assert (S : Py.index (Py.split "_" ("format_" ++ kind ++ more)) 1 = Some kind).
  { unfold Py.split.
    change ("format_" ++ kind ++ more) with ("format" ++ String "_" (kind ++ more)).
    rewrite split_from_field by reflexivity.
    destruct Hmore as [->|[r ->]].
    - rewrite append_nil_r, split_from_free by exact Hkind. reflexivity.
    - change ("_" ++ r) with (String "_" r).
      rewrite split_from_field by exact Hkind. reflexivity. }
  rewrite P, S. unfold get_user_data.
  destruct (String.eqb kind "txt");
    [now destruct (dict_get "ocr_text" user_data)|].
  destruct (String.eqb kind "md");
    [now destruct (dict_get "ocr_markdown" user_data)|].
  reflexivity.
Qed.

End Buttons.

(** ** The file name and extension of a download *)

Section DownloadName.

Lemma split_from_nonempty_any (sep : string) (k : nat) (cur s : string) :
  Py.split_from sep k cur s <> [].
Proof.
  revert k cur. induction s as [|a s IH]; intros k cur; [discriminate|].
  cbn [Py.split_from]. destruct k as [|k]; [|apply IH].
  destruct (String.prefix sep (String a s)); [discriminate | apply IH].
Qed.

(** Where the separator occurs, the split has at least two fields. *)
Lemma split_from_two (sep cur s : string) :
  sep <> "" -> Py.contains sep s = true ->
  exists a b l, Py.split_from sep 0 cur s = a :: b :: l.
Proof.
  intros Hne. revert cur. induction s as [|c s IH]; intros cur H.
  - destruct sep; [contradiction | discriminate H].
  - cbn [Py.split_from]. rewrite contains_cons in H.
    destruct (String.prefix sep (String c s)) eqn:P.
    + destruct (Py.split_from sep (String.length sep - 1) "" s) as [|b l] eqn:E.
      * now apply split_from_nonempty_any in E.
      * now exists (Py.rev_string "" cur), b, l.
    + apply IH. exact H.
Qed.

Lemma last_item_some {A : Type} (l : list A) :
  l <> [] -> exists x l', l = (l' ++ [x])%list /\ Py.last_item l = Some x.
Proof.
  intros H. destruct (exists_last H) as [l' [x E]].
  exists x, l'. split; [exact E|].
  unfold Py.last_item. now rewrite E, rev_app_distr.
Qed.

Lemma join_snoc (sep : string) (l : list string) (x : string) :
  exists before, Py.join sep (l ++ [x])%list = before ++ x.
Proof.
  induction l as [|y l [before IH]].
  - now exists "".
  - destruct l as [|z l].
    + exists (y ++ sep). cbn. now rewrite append_assoc.
    + exists (y ++ sep ++ before).
      change (Py.join sep ((y :: z :: l) ++ [x])%list)
        with (y ++ sep ++ Py.join sep ((z :: l) ++ [x])%list).
      rewrite IH. now rewrite !append_assoc.
Qed.

(** X17. [download_filename] always gives a name: the list index it takes
    is never out of range.  Without a [Content-Disposition] header the name
    is the end of the URL and holds no slash. *)
Theorem download_filename_total (url : string) (cd : option string) :
  exists name,
    download_filename url cd = ok name
    /\ (cd = None ->
        free_of "/" name = true /\ exists before, url = before ++ name).
Proof.
  assert (T : exists name,
            Py.last_item (Py.split "/" url) = Some name
            /\ free_of "/" name = true /\ exists before, url = before ++ name).
  { destruct (last_item_some (Py.split "/" url)) as [name [l' [E L]]];
      [apply split_from_nonempty_any|].
    exists name. split; [exact L | split].
    - pose proof (split_from_fields_free "/" "" url eq_refl) as F.
      fold (Py.split "/" url) in F. rewrite E in F.
      apply Forall_app in F. destruct F as [_ F]. now inversion F.
    - destruct (join_snoc "/" l' name) as [before J].
      exists before. rewrite <- J, <- E.
      unfold Py.split. now rewrite join_split_from. }
  destruct T as [name [L [F B]]].
  unfold download_filename. destruct cd as [cd|].
  - destruct (Py.truthy cd && Py.contains "filename=" cd) eqn:C.
    + apply andb_true_iff in C. destruct C as [_ C].
      destruct (split_from_two "filename=" "" cd) as [a [b [l E]]];
        [discriminate | exact C |].
      unfold Py.split. rewrite E. cbn [Py.index nth_error].
      eexists. split; [reflexivity | discriminate].
    + rewrite L. exists name. split; [reflexivity | discriminate].
  - rewrite L. exists name. split; [reflexivity|]. intros _. now split.
Qed.

(** X18. A download for which the MIME table gives nothing and whose file
    name has no suffix is always accepted: it is taken for a [.jpg] or a
    [.pdf]. *)
Theorem untyped_download_accepted
    (lib : Library) (content_type_value filename : string) :
  nothing (guess_extension lib content_type_value) ->
  path_suffix lib filename = "" ->
  is_supported (Py.lower (resolve_extension lib content_type_value filename))
  = true.
Proof.
  unfold resolve_extension, nothing. intros [-> | ->] ->;
    cbn [Py.truthy]; destruct (Py.contains "image" content_type_value);
    reflexivity.
Qed.

End DownloadName.

(** ** Further instances *)

Lemma temp_file_removed_on_success_only_witness :
  existsb is_temp_file
    (trace (process_document sample_library upload_failing_world)) = true
  /\ existsb is_unlink
       (trace (process_document sample_library upload_failing_world)) = false.
Proof.
  exact (temp_file_removed_on_success_only sample_library upload_failing_world
           "documents/scan.pdf" eq_refl eq_refl).
Defined.

Lemma provider_needs_supported_document_witness :
  exists file_path,
    document_file_path (sample_world "documents/file_1.PDF" None) = ok file_path
    /\ is_supported (Py.lower (path_suffix sample_library file_path)) = true
    /\ download (sample_world "documents/file_1.PDF" None) = ok tt.
Proof.
  apply (provider_needs_supported_document sample_library
           (sample_world "documents/file_1.PDF" None)).
  reflexivity.
Defined.

Lemma provider_needs_supported_link_witness :
  exists url more response filename body,
    ["http://example.com/x"] = url :: more
    /\ link_input_ok sample_library ["http://example.com/x"] = true
    /\ http_get (sample_world "" (Some "image/png")) url = ok response
    /\ status response = 200
    /\ download_filename url (content_disposition response) = ok filename
    /\ is_supported
         (Py.lower
            (resolve_extension sample_library (content_type response) filename))
       = true
    /\ read response = ok body.
Proof.
  apply (provider_needs_supported_link sample_library
           (sample_world "" (Some "image/png")) ["http://example.com/x"]).
  reflexivity.
Defined.

Lemma photo_url_shortcut_witness :
  existsb is_staging_call
    (trace (process_photo (sample_world "" None)
              (sample_photo (Str "https://api.telegram.org/file/photo_1.jpg"))))
  = false
  /\ exists rest,
       trace (process_photo (sample_world "" None)
                (sample_photo (Str "https://api.telegram.org/file/photo_1.jpg")))
       = reply_text processing_photo_msg :: get_file
         :: ocr_process "https://api.telegram.org/file/photo_1.jpg" :: rest.
Proof.
  exact (photo_url_shortcut (sample_world "" None)
           (sample_photo (Str "https://api.telegram.org/file/photo_1.jpg"))
           (Str "https://api.telegram.org/file/photo_1.jpg") eq_refl).
Defined.

Lemma stored_result_is_delivered_witness :
  button_callback
    (user_data_after (trace (send_ocr_results [markdown_page "# Title"]))
       [("ocr_text", "old text")])
    "format_txt" =
    ([answer;
      reply_document "extracted_text.txt" (extract_text [markdown_page "# Title"])
        document_caption],
     ok tt)
  /\ button_callback
       (user_data_after (trace (send_ocr_results [markdown_page "# Title"]))
          [("ocr_text", "old text")])
       "format_md" =
     ([answer; reply_document "extracted_content.md" "# Title" document_caption],
      ok tt).
Proof.
  apply (stored_result_is_delivered [markdown_page "# Title"] "# Title"
           [("ocr_text", "old text")]).
  reflexivity.
Defined.

Lemma failed_run_keeps_previous_result_witness :
  user_data_after (trace (send_ocr_results [paragraph_page_with_images]))
    [("ocr_text", "old text"); ("ocr_markdown", "old markdown")] =
  [("ocr_text", "old text"); ("ocr_markdown", "old markdown")]
  /\ button_callback
       (user_data_after (trace (send_ocr_results [paragraph_page_with_images]))
          [("ocr_text", "old text"); ("ocr_markdown", "old markdown")])
       "format_txt" =
     button_callback [("ocr_text", "old text"); ("ocr_markdown", "old markdown")]
       "format_txt".
Proof.
  apply (failed_run_keeps_previous_result [paragraph_page_with_images]
           (AttributeError "markdown")).
  reflexivity.
Defined.

Lemma button_by_kind_witness :
  button_callback [("ocr_text", "T")] ("format_" ++ "txt" ++ "_again") =
  ([answer; reply_document "extracted_text.txt" "T" document_caption], ok tt).
Proof.
  apply (button_by_kind [("ocr_text", "T")] "txt" "_again").
  - reflexivity.
  - right. now exists "again".
Defined.

Lemma untyped_download_accepted_witness :
  is_supported
    (Py.lower (resolve_extension sample_library "application/octet-stream" "download"))
  = true.
Proof.
  apply (untyped_download_accepted sample_library "application/octet-stream"
           "download").
  - left. reflexivity.
  - reflexivity.
Defined.

(** ** Marked patterns through a replacement

    A pattern [String m t] whose mark [m] occurs nowhere in [t], and the
    replacement of [String m o] by [String m n]. *)

Section MarkedPatterns.

Variable m : ascii.
Variables t o n : string.

Local Abbreviation mark := (String m "").
Local Abbreviation pat := (String m t).
Local Abbreviation old := (String m o).
Local Abbreviation new := (String m n).

Lemma prefix_split (x s : string) :
  String.prefix x s = true -> s = x ++ Py.drop (String.length x) s.
Proof.
  revert s. induction x as [|a x IH]; intros s H; [reflexivity|].
  destruct s as [|b s]; [discriminate H|].
  apply prefix_cons in H. destruct H as [-> H].
  cbn [String.length Py.drop append]. f_equal. now apply IH.
Qed.

(** A text without the mark that starts the input also starts the output. *)
Lemma unmarked_prefix_kept (x s : string) :
  free_of mark x = true ->
  String.prefix x s = true ->
  String.prefix x (Py.replace_from old new 0 s) = true.
Proof.
  revert s. induction x as [|a x IH]; intros s Hf H; [apply prefix_empty|].
  apply free_of_mark_head in Hf. destruct Hf as [Ha Hf].
  destruct s as [|c s]; [discriminate H|].
  apply prefix_cons in H. destruct H as [<- H].
  rewrite replace_from_keep by now apply old_not_at.
  apply prefix_cons. split; [reflexivity | now apply IH].
Qed.

(** A pattern that does not occur, and that no replacement text starts,
    does not occur after the replacement. *)
Lemma absence_preserved :
  free_of mark t = true -> free_of mark n = true ->
  (forall r, String.prefix pat (new ++ r) = false) ->
  forall s k,
    Py.contains pat s = false ->
    Py.contains pat (Py.replace_from old new k s) = false.
Proof.
  intros t_free n_free differ.
  induction s as [|c s IH]; intros k H.
  - destruct k; exact H.
  - rewrite contains_cons in H. apply orb_false_iff in H. destruct H as [Hp Hc].
    destruct k as [|k]; [|now apply IH].
    destruct (String.prefix old (String c s)) eqn:E.
    + cbn [Py.replace_from]. rewrite E.
      set (r := Py.replace_from old new (String.length old - 1) s).
      change (new ++ r) with (String m (n ++ r)).
      rewrite contains_cons.
      change (String m (n ++ r)) with (new ++ r). rewrite differ.
      rewrite contains_skip_unmarked by exact n_free. now apply IH.
    + rewrite replace_from_keep by exact E.
      rewrite contains_cons, (IH 0 Hc), orb_false_r.
      destruct (String.prefix pat (String c (Py.replace_from old new 0 s))) eqn:Q;
        [|reflexivity].
      apply prefix_cons in Q. destruct Q as [Ec Q]. subst c.
      apply unmarked_prefix in Q; [|exact t_free].
      assert (Q' : String.prefix pat (String m s) = true)
        by (apply prefix_cons; now split).
      congruence.
Qed.

(** A pattern that occurs, and that starts no occurrence of [old], still
    occurs after the replacement. *)
Lemma presence_preserved :
  free_of mark t = true -> free_of mark o = true ->
  (forall r, String.prefix pat (old ++ r) = false) ->
  forall s k,
    Py.contains pat (Py.drop k s) = true ->
    Py.contains pat (Py.replace_from old new k s) = true.
Proof.
  intros t_free o_free apart.
  induction s as [|c s IH]; intros k H.
  - destruct k; discriminate H.
  - destruct k as [|k]; [|now apply IH].
    cbn [Py.drop] in H.
    destruct (String.prefix old (String c s)) eqn:E.
    + cbn [Py.replace_from]. rewrite E.
      apply contains_append_r. apply IH.
      apply prefix_cons in E. destruct E as [Ec E]. subst c.
      apply prefix_split in E.
      replace (String.length old - 1) with (String.length o)
        by (cbn [String.length]; lia).
      rewrite contains_cons in H.
      assert (A : String.prefix pat (String m s) = false).
      { rewrite E. change (String m (o ++ Py.drop (String.length o) s))
          with (old ++ Py.drop (String.length o) s). apply apart. }
      rewrite A in H. cbn [orb] in H.
      rewrite E in H. rewrite contains_skip_unmarked in H by exact o_free.
      exact H.
    + rewrite replace_from_keep by exact E.
      rewrite contains_cons in *. apply orb_true_iff in H.
      destruct H as [Hp|Hc].
      * apply prefix_cons in Hp. destruct Hp as [Ec Hp]. subst c.
        assert (Q : String.prefix pat (String m (Py.replace_from old new 0 s)) = true).
        { apply prefix_cons. split; [reflexivity|].
          now apply unmarked_prefix_kept. }
        now rewrite Q.
      * rewrite (IH 0 Hc). apply orb_true_r.
Qed.

End MarkedPatterns.

(** ** Image references of well-formed images *)

Section WellFormedImages.

Lemma free_of_member (chars s : string) (c : ascii) :
  free_of chars s = true -> Py.mem_char c chars = true ->
  free_of (String c "") s = true.
Proof.
  intros H Hc. induction s as [|a s IH]; [reflexivity|].
  cbn [free_of] in *. apply andb_true_iff in H. destruct H as [Ha Hs].
  rewrite (IH Hs), andb_true_r. cbn [Py.mem_char]. rewrite orb_false_r.
  destruct (Ascii.eqb_spec a c) as [->|_]; [|reflexivity].
  now rewrite Hc in Ha.
Qed.

Lemma free_of_pair (c d : ascii) (s : string) :
  free_of (String c "") s = true -> free_of (String d "") s = true ->
  free_of (String c (String d "")) s = true.
Proof.
  induction s as [|a s IH]; [reflexivity|].
  cbn [free_of Py.mem_char]. rewrite !orb_false_r, !andb_true_iff, !negb_true_iff.
  intros [Hc Hs] [Hd Hs']. rewrite Hc, Hd. split; [reflexivity | now apply IH].
Qed.

Lemma plain_no_bang (s : string) : plain s = true -> free_of "!" s = true.
Proof. intros H. now apply (free_of_member "![]()"). Qed.

Lemma plain_no_bracket (s : string) : plain s = true -> free_of "]" s = true.
Proof. intros H. now apply (free_of_member "![]()"). Qed.

Lemma plain_no_paren (s : string) : plain s = true -> free_of ")" s = true.
Proof. intros H. now apply (free_of_member "![]()"). Qed.

Lemma plain_for_removal (s : string) : plain s = true -> free_of "!)" s = true.
Proof.
  intros H. apply free_of_pair; [now apply plain_no_bang | now apply plain_no_paren].
Qed.

(** Two names without a closing bracket that differ still differ once the
    bracket is closed, whatever follows. *)
Lemma bracket_names_differ (i j x y : string) :
  free_of "]" i = true -> free_of "]" j = true -> i <> j ->
  String.prefix (i ++ String "]" x) (j ++ String "]" y) = false.
Proof.
  assert (head : forall a s, free_of "]" (String a s) = true ->
                             a <> "]"%char /\ free_of "]" s = true).
  { intros a s H. cbn [free_of Py.mem_char] in H. rewrite orb_false_r in H.
    apply andb_true_iff in H. destruct H as [Ha Hs]. split; [|exact Hs].
    intros ->. discriminate Ha. }
  revert j. induction i as [|a i IH]; intros j Hi Hj Hne.
  - destruct j as [|b j]; [contradiction|].
    apply head in Hj. destruct Hj as [Hb _].
    change (String.prefix (String "]" x) (String b (j ++ String "]" y)) = false).
    destruct (String.prefix _ _) eqn:P; [|reflexivity].
    apply prefix_cons in P. destruct P as [P _]. now symmetry in P.
  - apply head in Hi. destruct Hi as [Ha Hi].
    destruct j as [|b j].
    + change (String.prefix (String a (i ++ String "]" x)) (String "]" y) = false).
      destruct (String.prefix _ _) eqn:P; [|reflexivity].
      apply prefix_cons in P. now destruct P.
    + apply head in Hj. destruct Hj as [_ Hj].
      change (String.prefix (String a (i ++ String "]" x))
                (String b (j ++ String "]" y)) = false).
      destruct (String.prefix _ _) eqn:P; [|reflexivity].
      apply prefix_cons in P. destruct P as [-> P].
      rewrite IH in P; [discriminate P | assumption | assumption |].
      intros ->. now apply Hne.
Qed.

(** The tails of the two patterns, after the ['!']. *)
Lemma ref_tail_free (i : string) :
  free_of "!" i = true -> free_of "!" ("[" ++ i ++ "](" ++ i ++ ")") = true.
Proof.
  intros H.
  change ("[" ++ i ++ "](" ++ i ++ ")") with ("[" ++ (i ++ "](" ++ (i ++ ")"))).
  rewrite !free_of_append, H. reflexivity.
Qed.

Lemma inline_tail_free (i b : string) :
  free_of "!" i = true -> free_of "!" b = true ->
  free_of "!" ("[" ++ i ++ "](" ++ b ++ ")") = true.
Proof.
  intros Hi Hb.
  change ("[" ++ i ++ "](" ++ b ++ ")") with ("[" ++ (i ++ "](" ++ (b ++ ")"))).
  rewrite !free_of_append, Hi, Hb. reflexivity.
Qed.

(** Patterns for different names never start at the same place. *)
Lemma syntax_apart (i j x y r : string) :
  free_of "]" i = true -> free_of "]" j = true -> i <> j ->
  String.prefix (String "!" ("[" ++ i ++ "](" ++ x ++ ")"))
    (String "!" ("[" ++ j ++ "](" ++ y ++ ")") ++ r) = false.
Proof.
  intros Hi Hj Hne.
  change (String "!" ("[" ++ i ++ "](" ++ x ++ ")"))
    with ("![" ++ (i ++ String "]" ("(" ++ x ++ ")"))).
  change (String "!" ("[" ++ j ++ "](" ++ y ++ ")") ++ r)
    with ("![" ++ ((j ++ String "]" ("(" ++ y ++ ")")) ++ r)).
  rewrite prefix_append_cancel, (append_assoc j).
  change (String "]" ("(" ++ y ++ ")") ++ r)
    with (String "]" (("(" ++ y ++ ")") ++ r)).
  now apply bracket_names_differ.
Qed.

Variables i j c : string.
Hypothesis i_plain : plain i = true.
Hypothesis j_plain : plain j = true.
Hypothesis c_plain : plain c = true.
Hypothesis names_differ : i <> j.

(** Rewriting the references to [j] creates no reference to [i]. *)
Lemma step_keeps_absent (s : string) :
  Py.contains (image_ref i) s = false ->
  Py.contains (image_ref i) (Py.replace (image_ref j) (image_inline j c) s) = false.
Proof.
  change (image_ref i) with (String "!" ("[" ++ i ++ "](" ++ i ++ ")")).
  change (image_ref j) with (String "!" ("[" ++ j ++ "](" ++ j ++ ")")).
  change (image_inline j c) with (String "!" ("[" ++ j ++ "](" ++ c ++ ")")).
  unfold Py.replace. apply absence_preserved.
  - apply ref_tail_free. now apply plain_no_bang.
  - apply inline_tail_free; now apply plain_no_bang.
  - intros r. apply syntax_apart; try (now apply plain_no_bracket). exact names_differ.
Qed.

(** Rewriting the references to [j] keeps the references to [i]. *)
Lemma step_keeps_ref (s : string) :
  Py.contains (image_ref i) s = true ->
  Py.contains (image_ref i) (Py.replace (image_ref j) (image_inline j c) s) = true.
Proof.
  change (image_ref i) with (String "!" ("[" ++ i ++ "](" ++ i ++ ")")).
  change (image_ref j) with (String "!" ("[" ++ j ++ "](" ++ j ++ ")")).
  change (image_inline j c) with (String "!" ("[" ++ j ++ "](" ++ c ++ ")")).
  unfold Py.replace. intros H. apply presence_preserved.
  - apply ref_tail_free. now apply plain_no_bang.
  - apply ref_tail_free. now apply plain_no_bang.
  - intros r. apply syntax_apart; try (now apply plain_no_bracket). exact names_differ.
  - exact H.
Qed.

(** Rewriting the references to [j] keeps the inlined images of [i]. *)
Lemma step_keeps_inline (b s : string) :
  plain b = true ->
  Py.contains (image_inline i b) s = true ->
  Py.contains (image_inline i b)
    (Py.replace (image_ref j) (image_inline j c) s) = true.
Proof.
  intros b_plain.
  change (image_inline i b) with (String "!" ("[" ++ i ++ "](" ++ b ++ ")")).
  change (image_ref j) with (String "!" ("[" ++ j ++ "](" ++ j ++ ")")).
  change (image_inline j c) with (String "!" ("[" ++ j ++ "](" ++ c ++ ")")).
  unfold Py.replace. intros H. apply presence_preserved.
  - apply inline_tail_free; now apply plain_no_bang.
  - apply ref_tail_free. now apply plain_no_bang.
  - intros r. apply syntax_apart; try (now apply plain_no_bracket). exact names_differ.
  - exact H.
Qed.

End WellFormedImages.

(** ** Image substitution *)

Section ImageSubstitution.

Lemma dict_set_items (k v : string) (d : dict) (item : string * string) :
  In item (dict_set k v d) -> item = (k, v) \/ In item d.
Proof.
  induction d as [|[k' v'] d IH]; cbn [dict_set].
  - intros [<-|[]]. now left.
  - destruct (String.eqb k' k).
    + intros [<-|H]; [now left | right; now right].
    + intros [<-|H]; [right; now left|].
      destruct (IH H) as [L|R]; [now left | right; now right].
Qed.

Lemma fold_add_image_items
    (imgs : list OCRImage) (d : dict) (item : string * string) :
  In item (fold_left add_image imgs d) ->
  (exists img, In img imgs /\ item = (id img, image_base64 img)) \/ In item d.
Proof.
  revert d. induction imgs as [|img imgs IH]; intros d H; [now right|].
  cbn [fold_left] in H. destruct (IH _ H) as [[x [Hx E]]|R].
  - left. exists x. split; [now right | exact E].
  - unfold add_image in R. apply dict_set_items in R. destruct R as [R|R].
    + left. exists img. split; [now left | exact R].
    + now right.
Qed.

Lemma dict_set_has_key (k v : string) (d : dict) :
  In k (map fst (dict_set k v d)).
Proof.
  induction d as [|[k' v'] d IH]; cbn [dict_set]; [now left|].
  destruct (String.eqb k' k); [now left | right; exact IH].
Qed.

Lemma dict_set_keeps_key (k k0 v0 : string) (d : dict) :
  In k (map fst d) -> In k (map fst (dict_set k0 v0 d)).
Proof.
  induction d as [|[k' v'] d IH]; [intros []|].
  cbn [dict_set map fst]. intros [<-|H].
  - destruct (String.eqb k' k0) eqn:E.
    + apply String.eqb_eq in E. subst k0. now left.
    + now left.
  - destruct (String.eqb k' k0); right; [exact H | now apply IH].
Qed.

Lemma fold_add_image_has_key (imgs : list OCRImage) (d : dict) (k : string) :
  In k (map id imgs) \/ In k (map fst d) ->
  In k (map fst (fold_left add_image imgs d)).
Proof.
  revert d. induction imgs as [|img imgs IH]; intros d H.
  - destruct H as [[]|H]. exact H.
  - cbn [fold_left]. apply IH. destruct H as [[<-|H]|H].
    + right. apply dict_set_has_key.
    + now left.
    + right. now apply dict_set_keeps_key.
Qed.

(** The rewriting of the other images leaves alone what is absent or
    present for the image [i]. *)
Lemma fold_keeps_absent (i : string) (d : dict) (s : string) :
  plain i = true ->
  (forall item, In item d ->
     plain (fst item) = true /\ plain (snd item) = true /\ fst item <> i) ->
  Py.contains (image_ref i) s = false ->
  Py.contains (image_ref i) (replace_images_in_markdown s d) = false.
Proof.
  intros Hi. unfold replace_images_in_markdown.
  revert s. induction d as [|[k v] d IH]; intros s Hd H; [exact H|].
  cbn [fold_left]. destruct (Hd (k, v)) as [Hk [Hv Hne]]; [now left|].
  apply IH; [intros item Hin; apply Hd; now right|].
  apply step_keeps_absent; try assumption. intros E. now apply Hne.
Qed.

Lemma fold_keeps_inline (i b : string) (d : dict) (s : string) :
  plain i = true -> plain b = true ->
  (forall item, In item d ->
     plain (fst item) = true /\ plain (snd item) = true /\ fst item <> i) ->
  Py.contains (image_inline i b) s = true ->
  Py.contains (image_inline i b) (replace_images_in_markdown s d) = true.
Proof.
  intros Hi Hb. unfold replace_images_in_markdown.
  revert s. induction d as [|[k v] d IH]; intros s Hd H; [exact H|].
  cbn [fold_left]. destruct (Hd (k, v)) as [Hk [Hv Hne]]; [now left|].
  apply IH; [intros item Hin; apply Hd; now right|].
  apply step_keeps_inline; try assumption. intros E. now apply Hne.
Qed.

(** Every entry of a well-formed image map is rewritten. *)
Lemma rewrite_all (d : dict) :
  NoDup (map fst d) ->
  (forall item, In item d ->
     plain (fst item) = true /\ plain (snd item) = true /\ fst item <> snd item) ->
  forall s i b,
    In (i, b) d ->
    Py.contains (image_ref i) (replace_images_in_markdown s d) = false
    /\ (Py.contains (image_ref i) s = true ->
        Py.contains (image_inline i b) (replace_images_in_markdown s d) = true).
Proof.
  induction d as [|[k v] d IH]; intros Hnd Hwf s i b Hin; [destruct Hin|].
  inversion Hnd as [|? ? Hfresh Hnd']; subst.
  destruct (Hwf (k, v)) as [Hk [Hv Hkv]]; [now left|]. cbn [fst snd] in *.
  assert (Hrest : forall item, In item d ->
            plain (fst item) = true /\ plain (snd item) = true
            /\ fst item <> k).
  { intros item Hitem. destruct (Hwf item) as [H1 [H2 _]]; [now right|].
    repeat split; try assumption.
    intros E. apply Hfresh. rewrite <- E. now apply in_map. }
  change (replace_images_in_markdown s ((k, v) :: d))
    with (replace_images_in_markdown
            (Py.replace (image_ref k) (image_inline k v) s) d).
  destruct Hin as [E|Hin].
  - inversion E; subst i b. split.
    + apply fold_keeps_absent; try assumption.
      apply image_ref_removed; try assumption; now apply plain_for_removal.
    + intros H. apply fold_keeps_inline; try assumption.
      now apply image_ref_inlined.
  - assert (Hik : i <> k).
    { intros ->. apply Hfresh. change k with (fst (k, b)). now apply in_map. }
    destruct (Hwf (i, b)) as [Hi [Hb _]]; [now right|]. cbn [fst snd] in *.
    destruct (IH Hnd' (fun item H => Hwf item (or_intror H))
                (Py.replace (image_ref k) (image_inline k v) s) i b Hin)
      as [A P].
    split; [exact A|].
    intros H. apply P. now apply step_keeps_ref.
Qed.




End ImageSubstitution.
